(** * Document service (api/main.py): a shallow embedding and its properties

    The Flask application of [api/main.py] is embedded handler by handler.
    Python values are modelled as follows:
    - a [str] is the list of its Unicode code points ([pystr]);
    - [bytes] are lists of [Byte.byte];
    - JSON-like values (dicts, lists, numbers, strings) are the type [json],
      a dict being an association list in insertion order;
    - the storage directory is a finite map from entry names to nodes;
    - what the handlers draw from the outside world (a fresh uuid, the clock,
      I/O faults) is passed explicitly. *)

From Stdlib Require Import ZArith NArith QArith Lia List Bool.
From Stdlib Require Import Strings.String Strings.Ascii Strings.Byte.
From Stdlib Require Import DecimalString.
From stdpp Require Import base option list gmap.

Set Warnings "-register-all".
Open Scope Z_scope.

(** ** Python strings *)

Module PyStr.

(** A Python [str]: the sequence of its code points. *)
Abbreviation pystr := (list N).

(** The code points of an ASCII literal of the source. *)
Fixpoint py (s : string) : pystr :=
  match s with
  | EmptyString => []
  | String a s' => N_of_ascii a :: py s'
  end.

(** [a == b] on strings. *)
Fixpoint pystr_eqb (a b : pystr) : bool :=
  match a, b with
  | [], [] => true
  | x :: a', y :: b' => (x =? y)%N && pystr_eqb a' b'
  | _, _ => false
  end.

(** [str.isspace] on one code point, the set used by [str.split()] and
    [str.strip()] without argument. *)
Definition is_space (c : N) : bool :=
  ((9 <=? c) && (c <=? 13) || (28 <=? c) && (c <=? 32)
   || (c =? 133) || (c =? 160) || (c =? 5760)
   || (8192 <=? c) && (c <=? 8202)
   || (c =? 8232) || (c =? 8233) || (c =? 8239) || (c =? 8287)
   || (c =? 12288))%N.

(** [s.split()]: [cur] is the token being read, kept reversed. A token ends
    at a whitespace character or at the end of the string; empty tokens are
    never produced. *)
Fixpoint split_from (cur : pystr) (s : pystr) : list pystr :=
  match s with
  | [] => match cur with [] => [] | _ => [rev cur] end
  | c :: s' =>
      if is_space c
      then match cur with
           | [] => split_from [] s'
           | _ => rev cur :: split_from [] s'
           end
      else split_from (c :: cur) s'
  end.

Definition split (s : pystr) : list pystr := split_from [] s.

(** [s.lstrip()], [s.rstrip()] and [s.strip()] without argument. *)
Fixpoint lstrip (s : pystr) : pystr :=
  match s with
  | c :: s' => if is_space c then lstrip s' else s
  | [] => []
  end.

Definition rstrip (s : pystr) : pystr := rev (lstrip (rev s)).

Definition strip (s : pystr) : pystr := rstrip (lstrip s).

(** Does [p] start [s]?  ([s.startswith(p)]) *)
Fixpoint startswith (s p : pystr) : bool :=
  match p, s with
  | [], _ => true
  | _ :: _, [] => false
  | a :: p', b :: s' => (a =? b)%N && startswith s' p'
  end.

(** [s.endswith(p)]. *)
Definition endswith (s p : pystr) : bool := startswith (rev s) (rev p).

(** [s.replace(old, new)] for a non-empty [old]: every occurrence of [old],
    found from left to right without overlap, is replaced. [skip] counts the
    characters of the occurrence just matched that are still to be dropped. *)
Fixpoint replace_from (old new : pystr) (skip : nat) (s : pystr) : pystr :=
  match s with
  | [] => []
  | c :: s' =>
      match skip with
      | S k => replace_from old new k s'
      | O =>
          if startswith s old
          then new ++ replace_from old new (length old - 1) s'
          else c :: replace_from old new 0 s'
      end
  end.

(** With an empty [old] Python inserts [new] before every character and at
    the end. *)
Definition replace (s old new : pystr) : pystr :=
  match old with
  | [] => concat (map (fun c => new ++ [c]) s) ++ new
  | _ => replace_from old new 0 s
  end.

(** [str(n)] for an [int]. *)
Definition str_of_int (n : Z) : pystr :=
  py (NilZero.string_of_int (Z.to_int n)).

End PyStr.
Import PyStr.

(** ** UTF-8 *)

Module Utf8.

Definition byte_of_N (n : N) : byte := default x00 (Byte.of_N n).

Definition is_surrogate (c : N) : bool := ((55296 <=? c) && (c <=? 57343))%N.

(** The bytes of one code point; [None] where Python raises
    [UnicodeEncodeError] (a lone surrogate) or the value is no code point. *)
Definition encode_char (c : N) : option (list byte) :=
  (if c <? 128 then Some [byte_of_N c]
   else if c <? 2048 then
     Some [byte_of_N (192 + c / 64); byte_of_N (128 + c mod 64)]
   else if c <? 65536 then
     if is_surrogate c then None
     else Some [byte_of_N (224 + c / 4096); byte_of_N (128 + (c / 64) mod 64);
                byte_of_N (128 + c mod 64)]
   else if c <? 1114112 then
     Some [byte_of_N (240 + c / 262144); byte_of_N (128 + (c / 4096) mod 64);
           byte_of_N (128 + (c / 64) mod 64); byte_of_N (128 + c mod 64)]
   else None)%N.

(** [s.encode("utf-8")]. *)
Fixpoint encode (s : pystr) : option (list byte) :=
  match s with
  | [] => Some []
  | c :: s' =>
      match encode_char c, encode s' with
      | Some b, Some r => Some (b ++ r)
      | _, _ => None
      end
  end.

Definition is_cont (b : N) : bool := ((128 <=? b) && (b <=? 191))%N.

(** The well-formed sequence at the head of [bs], if there is one: its code
    point and its length. Overlong forms, surrogates and values above
    U+10FFFF are not well formed. *)
Definition decode_one (bs : list N) : option (N * nat) :=
  (match bs with
   | [] => None
   | b0 :: t =>
       if b0 <? 128 then Some (b0, 1%nat)
       else if (194 <=? b0) && (b0 <=? 223) then
         match t with
         | b1 :: _ =>
             if is_cont b1 then Some ((b0 - 192) * 64 + (b1 - 128), 2%nat)
             else None
         | _ => None
         end
       else if (224 <=? b0) && (b0 <=? 239) then
         match t with
         | b1 :: b2 :: _ =>
             let c := (b0 - 224) * 4096 + (b1 - 128) * 64 + (b2 - 128) in
             if is_cont b1 && is_cont b2 && (2048 <=? c) && negb (is_surrogate c)
             then Some (c, 3%nat) else None
         | _ => None
         end
       else if (240 <=? b0) && (b0 <=? 244) then
         match t with
         | b1 :: b2 :: b3 :: _ =>
             let c := (b0 - 240) * 262144 + (b1 - 128) * 4096
                      + (b2 - 128) * 64 + (b3 - 128) in
             if is_cont b1 && is_cont b2 && is_cont b3
                && (65536 <=? c) && (c <? 1114112)
             then Some (c, 4%nat) else None
         | _ => None
         end
       else None
   end)%N.

(** [skip] counts the bytes of the sequence just decoded that are still to
    be passed over. A byte that starts no well-formed sequence is dropped. *)
Fixpoint decode_from (skip : nat) (bs : list N) : pystr :=
  match bs with
  | [] => []
  | _ :: rest =>
      match skip with
      | S k => decode_from k rest
      | O =>
          match decode_one bs with
          | Some (c, n) => c :: decode_from (n - 1) rest
          | None => decode_from 0 rest
          end
      end
  end.

(** [bs.decode("utf-8", errors="ignore")]: never fails. CPython drops the
    whole ill-formed prefix at once; the bytes of such a prefix after its
    first are continuation bytes, which start no sequence, so dropping byte
    by byte gives the same string. *)
Definition decode_ignore (bs : list byte) : pystr :=
  decode_from 0 (map Byte.to_N bs).

End Utf8.

(** ** JSON-like Python values *)

Module Json.

Inductive json : Type :=
| JNull
| JBool (b : bool)
| JInt (n : Z)
| JFloat (q : Q)
| JStr (s : pystr)
| JList (l : list json)
| JDict (d : list (pystr * json)).

Abbreviation pydict := (list (pystr * json)).

Definition jstr (s : string) : json := JStr (py s).

(** [d.get(k)] *)
Fixpoint dict_get (d : pydict) (k : pystr) : option json :=
  match d with
  | [] => None
  | (k', v) :: d' => if pystr_eqb k' k then Some v else dict_get d' k
  end.

(** [d[k] = v]: the value of an existing key is replaced where it stands, a
    new key goes last. *)
Fixpoint dict_set (d : pydict) (k : pystr) (v : json) : pydict :=
  match d with
  | [] => [(k, v)]
  | (k', v') :: d' =>
      if pystr_eqb k' k then (k', v) :: d' else (k', v') :: dict_set d' k v
  end.

(** The dict without key [k]. *)
Fixpoint dict_remove (d : pydict) (k : pystr) : pydict :=
  match d with
  | [] => []
  | (k', v) :: d' =>
      if pystr_eqb k' k then dict_remove d' k else (k', v) :: dict_remove d' k
  end.

(** Python truthiness, as [x or y] tests it. *)
Definition truthy (v : json) : bool :=
  match v with
  | JNull => false
  | JBool b => b
  | JInt n => negb (n =? 0)
  | JFloat q => negb (Qeq_bool q 0)
  | JStr s => negb (pystr_eqb s [])
  | JList l => negb (length l =? 0)%nat
  | JDict d => negb (length d =? 0)%nat
  end.

(** The member at a path of keys. *)
Fixpoint json_path (v : json) (p : list string) : option json :=
  match p with
  | [] => Some v
  | k :: p' =>
      match v with
      | JDict d =>
          match dict_get d (py k) with
          | Some v' => json_path v' p'
          | None => None
          end
      | _ => None
      end
  end.

(** Deep equality of JSON values: numbers, strings and lists compare
    member by member, objects compare as maps from keys to values, the order
    of keys being irrelevant. *)
Fixpoint deep_equal (a b : json) : bool :=
  match a, b with
  | JNull, JNull => true
  | JBool x, JBool y => Bool.eqb x y
  | JInt x, JInt y => x =? y
  | JFloat x, JFloat y => Qeq_bool x y
  | JStr x, JStr y => pystr_eqb x y
  | JList x, JList y =>
      (fix go (x y : list json) : bool :=
         match x, y with
         | [], [] => true
         | u :: x', v :: y' => deep_equal u v && go x' y'
         | _, _ => false
         end) x y
  | JDict x, JDict y =>
      forallb (fun kv => match dict_get y (fst kv) with
                         | Some v' => deep_equal (snd kv) v'
                         | None => false
                         end) x
      && forallb (fun kv => match dict_get x (fst kv) with
                            | Some _ => true
                            | None => false
                            end) y
  | _, _ => false
  end.

End Json.
Import Json.

(** ** The service *)

Module Service.

(** *** Configuration (module-level constants read from the environment) *)

Record Config : Type := {
  ENVIRONMENT : pystr;
  LOG_LEVEL : pystr;
  MODEL_NAME : pystr;
  EMBEDDINGS_API_KEY : option pystr;      (* [os.getenv] gives [None] when unset *)
  MAX_DOCUMENT_SIZE_MB : Z;
  PROCESSING_TIMEOUT_SECONDS : Z;
  STORAGE_PATH : pystr
}.

(** [bool(EMBEDDINGS_API_KEY and EMBEDDINGS_API_KEY.strip())] *)
Definition _embeddings_key_configured (cfg : Config) : bool :=
  match EMBEDDINGS_API_KEY cfg with
  | None => false
  | Some k =>
      match k with
      | [] => false
      | _ => negb (pystr_eqb (strip k) [])
      end
  end.

(** *** Requests, as Flask presents them *)

(** A werkzeug [FileStorage], as the form parser builds it from a part
    that has a filename; it is truthy when its filename is not empty. *)
Record FileStorage : Type := {
  filename : pystr;
  stream : list byte
}.

Definition file_truthy (f : FileStorage) : bool :=
  match filename f with
  | _ :: _ => true
  | [] => false
  end.

(** A part of a [multipart/form-data] body: its name, the filename of its
    content disposition if it has one, and its bytes. A part with a filename
    (even an empty one) is a file, a part without is a form field. *)
Record part : Type := {
  part_name : pystr;
  part_filename : option pystr;
  part_data : list byte
}.

(** The body of a form request. *)
Inductive form : Type :=
| Multipart (parts : list part)
| Urlencoded (body : list byte).

(** The body of a request, by the class of its content type:
    - a JSON mimetype, with the value [get_json(silent=True)] yields
      ([None] when the body does not parse);
    - a form mimetype, whose body werkzeug's form parser reads when
      [request.files] is first touched;
    - any other, whose bytes are in [request.data]. *)
Inductive request : Type :=
| JsonRequest (parsed : option json)
| FormRequest (f : form)
| DataRequest (data : list byte).

Definition is_json (r : request) : bool :=
  match r with JsonRequest _ => true | _ => false end.

Definition get_json_silent (r : request) : option json :=
  match r with JsonRequest p => p | _ => None end.

(** The files of a form: its parts that have a filename, in order. *)
Fixpoint files_of_parts (parts : list part) : list (pystr * FileStorage) :=
  match parts with
  | [] => []
  | p :: rest =>
      match part_filename p with
      | Some name =>
          (part_name p, {| filename := name; stream := part_data p |})
          :: files_of_parts rest
      | None => files_of_parts rest
      end
  end.

Definition form_files (f : form) : list (pystr * FileStorage) :=
  match f with
  | Multipart parts => files_of_parts parts
  | Urlencoded _ => []
  end.

(** [request.files]. On a form request this runs the form parser, which
    raises [RequestEntityTooLarge] on a body beyond its limits
    ([form_too_large], the verdict of the library: too many parts, too large
    a field); [None] stands for that exception. No other request has
    files. *)
Definition request_files (form_too_large : form -> bool) (r : request)
  : option (list (pystr * FileStorage)) :=
  match r with
  | FormRequest f => if form_too_large f then None else Some (form_files f)
  | _ => Some []
  end.

(** [request.data], as read on the last branch, after [request.files]: the
    body of a request that is not a form, and nothing for a form, whose body
    the form parser has consumed. *)
Definition request_data (r : request) : list byte :=
  match r with DataRequest d => d | _ => [] end.

(** [MultiDict.get]: the first value under the key. *)
Fixpoint files_get (fs : list (pystr * FileStorage)) (k : pystr) : option FileStorage :=
  match fs with
  | [] => None
  | (k', f) :: fs' => if pystr_eqb k' k then Some f else files_get fs' k
  end.


(** *** What a view function does *)

Inductive exn : Type := AttributeError | UnicodeEncodeError | RequestEntityTooLarge.

(** A view returns a JSON body with a status, or lets an exception escape;
    Flask then answers with its own error page, 413 for the HTTP exception
    [RequestEntityTooLarge] and 500 for the others. *)
Inductive outcome : Type :=
| Response (status : Z) (body : json)
| Unhandled (e : exn).

(** The HTTP status of an outcome. *)
Definition status_of (o : outcome) : Z :=
  match o with
  | Response status _ => status
  | Unhandled RequestEntityTooLarge => 413
  | Unhandled _ => 500
  end.

(** Early exit: [inl o] leaves the view with [o], [inr a] goes on. *)
Definition step (A : Type) : Type := outcome + A.

Definition bind {A B} (m : step A) (k : A -> step B) : step B :=
  match m with
  | inl o => inl o
  | inr a => k a
  end.

Notation "x <- m ;; k" := (bind m (fun x => k))
  (at level 100, m at next level, right associativity).

(** The result of an operation that may raise: [Raise msg] carries
    [str(exc)]. *)
Inductive io (A : Type) : Type :=
| Ok (a : A)
| Raise (msg : pystr).
Arguments Ok {A} a.
Arguments Raise {A} msg.

(** [os.path.join(a, b)] (posixpath). *)
Definition os_path_join (a b : pystr) : pystr :=
  if startswith b (py "/") then b
  else if pystr_eqb a [] || endswith a (py "/") then a ++ b
  else a ++ py "/" ++ b.

(** [len(content.encode("utf-8")) / (1024 * 1024)]: the quotient of an int
    below 2^53 by 2^20 is exact in a double, and Python compares a float with
    an int exactly, so the rational is the value compared. *)
Definition content_size_mb (size : nat) : Q :=
  (inject_Z (Z.of_nat size) / inject_Z (1024 * 1024))%Q.

(** [content_size_mb > MAX_DOCUMENT_SIZE_MB] *)
Definition exceeds (size_mb : Q) (max : Z) : bool :=
  negb (Qle_bool size_mb (inject_Z max)).

Definition mock_entities : json :=
  JList [ JDict [(py "text", jstr "Azure"); (py "type", jstr "Technology");
                 (py "confidence", JFloat 0.95)];
          JDict [(py "text", jstr "Container Apps"); (py "type", jstr "Service");
                 (py "confidence", JFloat 0.93)];
          JDict [(py "text", jstr "document"); (py "type", jstr "Concept");
                 (py "confidence", JFloat 0.87)] ].

Definition mock_key_phrases : json :=
  JList [ jstr "document processing"; jstr "container deployment";
          jstr "secrets and configuration"; jstr "revision management" ].

Definition mock_sentiment : json :=
  JDict [ (py "overall", jstr "neutral");
          (py "confidence", JFloat 0.78);
          (py "scores", JDict [(py "positive", JFloat 0.22);
                               (py "neutral", JFloat 0.68);
                               (py "negative", JFloat 0.10)]) ].

(** Input resolution of [process_document] (the [if request.is_json] chain):
    the content and the filename, both still arbitrary Python values on the
    JSON branch. *)
Definition resolve_input (form_too_large : form -> bool) (r : request)
  : step (json * json) :=
  if is_json r then
    let data := match get_json_silent r with
                | Some v => if truthy v then v else JDict []
                | None => JDict []
                end in
    match data with
    | JDict d =>
        inr (default (JStr []) (dict_get d (py "content")),
             default (jstr "document.txt") (dict_get d (py "filename")))
    | _ => inl (Unhandled AttributeError)      (* [data.get] on a non-dict *)
    end
  else
    match request_files form_too_large r with
    | None => inl (Unhandled RequestEntityTooLarge)
    | Some files =>
        if negb (length files =? 0)%nat then
          match files_get files (py "file") with
          | Some file =>
              if file_truthy file then
                inr (JStr (Utf8.decode_ignore (stream file)),
                     JStr (match filename file with
                           | [] => py "document.txt"
                           | name => name
                           end))
              else inl (Response 400 (JDict [(py "error", jstr "No file provided")]))
          | None => inl (Response 400 (JDict [(py "error", jstr "No file provided")]))
          end
        else
          let s := Utf8.decode_ignore (request_data r) in
          inr (JStr (match s with [] => py "Sample document" | _ => s end),
               jstr "document.txt")
    end.

(** [content.encode("utf-8")]: only a [str] has the method, and a lone
    surrogate cannot be encoded. *)
Definition encode_content (content : json) : step (pystr * list byte) :=
  match content with
  | JStr s =>
      match Utf8.encode s with
      | Some bs => inr (s, bs)
      | None => inl (Unhandled UnicodeEncodeError)
      end
  | _ => inl (Unhandled AttributeError)
  end.

(** The size check. *)
Definition check_size (cfg : Config) (bs : list byte) : step unit :=
  if exceeds (content_size_mb (length bs)) (MAX_DOCUMENT_SIZE_MB cfg) then
    inl (Response 413
           (JDict [(py "error",
                    JStr (py "Document exceeds maximum size of "
                          ++ str_of_int (MAX_DOCUMENT_SIZE_MB cfg) ++ py " MB"))]))
  else inr tt.

(** The [result] dict before its [storage] member is set. *)
Definition build_result (cfg : Config) (doc_id timestamp : pystr)
    (filename : json) (content : pystr) (encoded : list byte) : pydict :=
  let word_count := length (split content) in
  let char_count := length content in
  [ (py "document_id", JStr doc_id);
    (py "filename", filename);
    (py "processed_at", JStr timestamp);
    (py "environment", JStr (ENVIRONMENT cfg));
    (py "model", JDict [(py "name", JStr (MODEL_NAME cfg))]);
    (py "secrets", JDict [(py "embeddings_api_key_configured",
                           JBool (_embeddings_key_configured cfg))]);
    (py "statistics", JDict [(py "character_count", JInt (Z.of_nat char_count));
                             (py "word_count", JInt (Z.of_nat word_count));
                             (py "size_bytes", JInt (Z.of_nat (length encoded)))]);
    (py "analysis", JDict [(py "entities", mock_entities);
                           (py "key_phrases", mock_key_phrases);
                           (py "sentiment", mock_sentiment)]);
    (py "processing_config",
       JDict [(py "timeout_seconds", JInt (PROCESSING_TIMEOUT_SECONDS cfg));
              (py "max_size_mb", JInt (MAX_DOCUMENT_SIZE_MB cfg))]) ].

(** [root()] *)
Definition root (cfg : Config) : outcome :=
  Response 200
    (JDict [ (py "service", jstr "AI Document Processing API");
             (py "status", jstr "running");
             (py "version", jstr "1.0.0");
             (py "environment", JStr (ENVIRONMENT cfg));
             (py "model", JDict [(py "name", JStr (MODEL_NAME cfg))]);
             (py "secrets", JDict [(py "embeddings_api_key_configured",
                                    JBool (_embeddings_key_configured cfg))]);
             (py "config",
                JDict [(py "max_document_size_mb", JInt (MAX_DOCUMENT_SIZE_MB cfg));
                       (py "processing_timeout_seconds",
                          JInt (PROCESSING_TIMEOUT_SECONDS cfg));
                       (py "log_level", JStr (LOG_LEVEL cfg));
                       (py "storage_path", JStr (STORAGE_PATH cfg))]) ]).

(** [health()] *)
Definition health : outcome :=
  Response 200 (JDict [(py "status", jstr "healthy")]).

(** *** The storage directory and the views that use it *)

Section Views.

(** The library functions the views call, whose code is not part of the
    program: the contents of a file as written by [json.dump(_, f, indent=2)]
    and read back by [json.load(f)] (which raises on text that is not JSON),
    the size in bytes of such contents, and
    [datetime.fromtimestamp(t, tz=timezone.utc).isoformat()]. *)
Context {filedata : Type}.
Context (json_dump : json -> filedata).
Context (json_load : filedata -> io json).
Context (data_size : filedata -> Z).
Context (isoformat : Q -> pystr).

(** The verdict of werkzeug's form parser, see [request_files]. *)
Context (form_too_large : form -> bool).

Record stat_result : Type := {
  st_size : Z;
  st_ctime : Q
}.

(** An entry of the storage directory: what [os.stat] and reading it give.
    A regular file has both; a dangling link has no stat, a subdirectory
    cannot be read. *)
Record node : Type := {
  node_stat : io stat_result;
  node_read : io filedata
}.

Record directory : Type := {
  entries : gmap pystr node;
  listdir_error : option pystr     (* [os.listdir] raises, e.g. no permission *)
}.

(** The state of [STORAGE_PATH]: a directory, or absent, in which case
    [os.makedirs] creates it or raises. The names of entries are relative to
    it; the views only form paths [os.path.join(STORAGE_PATH, name)] with
    a [name] free of slashes (a uuid, a name from [os.listdir], or a
    [<doc_id>] route segment). *)
Inductive storage : Type :=
| NoDirectory (makedirs_error : option pystr)
| Directory (d : directory).

(** What one call of [process_document] draws from the outside. A failed
    write raises [msg]; it leaves the directory as it was when [open] failed
    ([None]) or a file with what had been written ([Some partial]). *)
Record env : Type := {
  uuid4 : pystr;                                   (* [str(uuid.uuid4())] *)
  utcnow : Q;                                      (* the clock *)
  write_fault : option (pystr * option filedata)
}.

Definition _ensure_storage_directory (st : storage) : bool * storage :=
  match st with
  | Directory _ => (true, st)
  | NoDirectory None =>
      (true, Directory {| entries := ∅; listdir_error := None |})
  | NoDirectory (Some _) => (false, st)
  end.

Definition os_stat (d : directory) (name : pystr) : io stat_result :=
  match entries d !! name with
  | Some n => node_stat n
  | None => Raise (py "[Errno 2] No such file or directory")
  end.

(** The entries under [STORAGE_PATH]; none when the directory is absent. *)
Definition storage_entries (st : storage) : gmap pystr node :=
  match st with
  | Directory d => entries d
  | NoDirectory _ => ∅
  end.

(** [os.path.exists]: true when [os.stat] succeeds. *)
Definition os_path_exists (st : storage) (name : pystr) : bool :=
  match st with
  | Directory d =>
      match os_stat d name with
      | Ok _ => true
      | Raise _ => false
      end
  | NoDirectory _ => false
  end.

Definition os_listdir (d : directory) : io (list pystr) :=
  match listdir_error d with
  | Some msg => Raise msg
  | None => Ok (map fst (map_to_list (entries d)))
  end.

(** [open(path, "r")] and reading the whole file. *)
Definition read_file (st : storage) (name : pystr) : io filedata :=
  match st with
  | Directory d =>
      match entries d !! name with
      | Some n => node_read n
      | None => Raise (py "[Errno 2] No such file or directory")
      end
  | NoDirectory _ => Raise (py "[Errno 2] No such file or directory")
  end.

Definition written (e : env) (data : filedata) : node :=
  {| node_stat := Ok {| st_size := data_size data; st_ctime := utcnow e |};
     node_read := Ok data |}.

(** [with open(result_path, "w") as f: json.dump(result, f, indent=2)] *)
Definition write_json (e : env) (d : directory) (name : pystr) (result : pydict)
  : io unit * directory :=
  match write_fault e with
  | None =>
      (Ok tt, {| entries := <[name := written e (json_dump (JDict result))]> (entries d);
                 listdir_error := listdir_error d |})
  | Some (msg, None) => (Raise msg, d)
  | Some (msg, Some partial) =>
      (Raise msg, {| entries := <[name := written e partial]> (entries d);
                     listdir_error := listdir_error d |})
  end.

Definition timestamp_z (t : Q) : pystr :=
  replace (isoformat t) (py "+00:00") (py "Z").

(** Everything [process_document] does before it touches storage: the
    [result] dict, or an early exit. *)
Definition prepare (cfg : Config) (e : env) (r : request) : step pydict :=
  let doc_id := uuid4 e in
  let timestamp := timestamp_z (utcnow e) in
  cf <- resolve_input form_too_large r ;;
  sb <- encode_content (fst cf) ;;
  _ <- check_size cfg (snd sb) ;;
  inr (build_result cfg doc_id timestamp (snd cf) (fst sb) (snd sb)).

(** The storage part of [process_document]: the [storage] member and the new
    state. *)
Definition persist (cfg : Config) (e : env) (result : pydict) (st : storage)
  : json * storage :=
  match _ensure_storage_directory st with
  | (true, Directory d) =>
      let name := uuid4 e ++ py ".json" in
      let result_path := os_path_join (STORAGE_PATH cfg) name in
      match write_json e d name result with
      | (Ok _, d') =>
          (JDict [(py "saved", JBool true); (py "path", JStr result_path)],
           Directory d')
      | (Raise msg, d') =>
          (JDict [(py "saved", JBool false); (py "error", JStr msg)],
           Directory d')
      end
  | (_, st') =>
      (JDict [(py "saved", JBool false); (py "reason", jstr "Storage not available")],
       st')
  end.

(** [process_document()] *)
Definition process_document (cfg : Config) (e : env) (r : request) (st : storage)
  : outcome * storage :=
  match prepare cfg e r with
  | inl o => (o, st)
  | inr result =>
      let (outcome_of_save, st') := persist cfg e result st in
      (Response 200 (JDict (dict_set result (py "storage") outcome_of_save)), st')
  end.

(** The loop of [list_documents] over the names [os.listdir] gave. *)
Fixpoint list_files (d : directory) (names : list pystr) : io (list json) :=
  match names with
  | [] => Ok []
  | filename :: rest =>
      if endswith filename (py ".json") then
        match os_stat d filename with
        | Raise msg => Raise msg
        | Ok stat =>
            match list_files d rest with
            | Raise msg => Raise msg
            | Ok files =>
                Ok (JDict [(py "document_id", JStr (replace filename (py ".json") []));
                           (py "size_bytes", JInt (st_size stat));
                           (py "created_at", JStr (timestamp_z (st_ctime stat)))]
                    :: files)
            end
        end
      else list_files d rest
  end.

(** [list_documents()] *)
Definition list_documents (st : storage) : outcome * storage :=
  match _ensure_storage_directory st with
  | (true, Directory d) =>
      match os_listdir d with
      | Raise msg =>
          (Response 200 (JDict [(py "documents", JList []); (py "error", JStr msg)]),
           Directory d)
      | Ok names =>
          match list_files d names with
          | Raise msg =>
              (Response 200 (JDict [(py "documents", JList []); (py "error", JStr msg)]),
               Directory d)
          | Ok files =>
              (Response 200 (JDict [(py "documents", JList files);
                                    (py "count", JInt (Z.of_nat (length files)))]),
               Directory d)
          end
      end
  | (_, st') =>
      (Response 200 (JDict [(py "documents", JList []);
                            (py "error", jstr "Storage not available")]),
       st')
  end.

(** [get_document(doc_id)] *)
Definition get_document (st : storage) (doc_id : pystr) : outcome :=
  let name := doc_id ++ py ".json" in
  if negb (os_path_exists st name) then
    Response 404 (JDict [(py "error", jstr "Document not found")])
  else
    match read_file st name with
    | Raise msg => Response 500 (JDict [(py "error", JStr msg)])
    | Ok data =>
        match json_load data with
        | Ok v => Response 200 v
        | Raise msg => Response 500 (JDict [(py "error", JStr msg)])
        end
    end.

(** The routes. *)
Inductive endpoint : Type :=
| GET_root
| GET_health
| POST_process (r : request)
| GET_documents
| GET_document (doc_id : pystr).

Definition handle (cfg : Config) (e : env) (ep : endpoint) (st : storage)
  : outcome * storage :=
  match ep with
  | GET_root => (root cfg, st)
  | GET_health => (health, st)
  | POST_process r => process_document cfg e r st
  | GET_documents => list_documents st
  | GET_document doc_id => (get_document st doc_id, st)
  end.

End Views.

End Service.

(** ** The wording of the specification, for comparison with the code *)

Module Spec.

(** "The number of whitespace-delimited tokens": a token starts at every
    character that is not whitespace and follows whitespace or the start of
    the text. [after_space] tells whether the previous character was one. *)
Fixpoint token_starts (after_space : bool) (s : pystr) : nat :=
  match s with
  | [] => 0
  | c :: s' =>
      (if after_space && negb (is_space c) then 1 else 0)
      + token_starts (is_space c) s'
  end%nat.

Definition whitespace_tokens (s : pystr) : nat := token_starts true s.

(** "The UTF-8 byte length": one to four bytes per character. *)
Definition utf8_width (c : N) : nat :=
  if (c <? 128)%N then 1%nat
  else if (c <? 2048)%N then 2%nat
  else if (c <? 65536)%N then 3%nat
  else 4%nat.

Definition utf8_length (s : pystr) : nat :=
  fold_right (fun c n => utf8_width c + n)%nat 0%nat s.

(** "Non-empty after trimming whitespace": the key is set and has a
    character that is not whitespace. *)
Definition nonempty_after_trim (k : option pystr) : bool :=
  match k with
  | Some s => existsb (fun c => negb (is_space c)) s
  | None => false
  end.

(** "Strictly exceeding [max] megabytes", a megabyte being 1024 * 1024
    bytes. *)
Definition over_limit (size : nat) (max : Z) : Prop :=
  max * (1024 * 1024) < Z.of_nat size.

(** "The filename with only the trailing [.json] stripped". *)
Definition strip_json_suffix (name : pystr) : pystr :=
  firstn (length name - 5) name.

End Spec.

(** A configuration that differs from [cfg] in the embeddings key only. *)
Definition with_key (cfg : Service.Config) (k : option pystr) : Service.Config :=
  {| Service.ENVIRONMENT := Service.ENVIRONMENT cfg;
     Service.LOG_LEVEL := Service.LOG_LEVEL cfg;
     Service.MODEL_NAME := Service.MODEL_NAME cfg;
     Service.EMBEDDINGS_API_KEY := k;
     Service.MAX_DOCUMENT_SIZE_MB := Service.MAX_DOCUMENT_SIZE_MB cfg;
     Service.PROCESSING_TIMEOUT_SECONDS := Service.PROCESSING_TIMEOUT_SECONDS cfg;
     Service.STORAGE_PATH := Service.STORAGE_PATH cfg |}.

(** ** Concrete inputs used by the examples *)

Module Demo.
Import Service.

(** An idealised codec: a file holds either the value that was dumped or
    text that [json.load] rejects with a message. *)
Inductive stored : Type :=
| Text (v : json)
| Garbage (msg : pystr).

Definition dump (v : json) : stored := Text v.

Definition load (d : stored) : io json :=
  match d with
  | Text v => Ok v
  | Garbage msg => Raise msg
  end.

Definition size (d : stored) : Z := 0.

Definition iso (t : Q) : pystr := py "2024-01-01T00:00:00+00:00".

(** The form parser with werkzeug's default limits: at most 1000 parts, at
    most 500000 bytes in a form field or in a urlencoded body. *)
Definition max_form_parts : Z := 1000.
Definition max_form_memory_size : Z := 500000.

Definition field_too_large (p : part) : bool :=
  match part_filename p with
  | None => max_form_memory_size <? Z.of_nat (length (part_data p))
  | Some _ => false
  end.

Definition parser (f : form) : bool :=
  match f with
  | Multipart parts =>
      (max_form_parts <? Z.of_nat (length parts)) || existsb field_too_large parts
  | Urlencoded body => max_form_memory_size <? Z.of_nat (length body)
  end.

(** The defaults of the source. *)
Definition cfg0 : Config :=
  {| ENVIRONMENT := py "development";
     LOG_LEVEL := py "INFO";
     MODEL_NAME := py "not-configured";
     EMBEDDINGS_API_KEY := None;
     MAX_DOCUMENT_SIZE_MB := 10;
     PROCESSING_TIMEOUT_SECONDS := 15;
     STORAGE_PATH := py "/tmp/processed" |}.

Definition cfg_max (m : Z) : Config :=
  {| ENVIRONMENT := py "development";
     LOG_LEVEL := py "INFO";
     MODEL_NAME := py "not-configured";
     EMBEDDINGS_API_KEY := None;
     MAX_DOCUMENT_SIZE_MB := m;
     PROCESSING_TIMEOUT_SECONDS := 15;
     STORAGE_PATH := py "/tmp/processed" |}.

Definition env0 : env (filedata := stored) :=
  {| uuid4 := py "123e4567-e89b-42d3-a456-426614174000";
     utcnow := 0;
     write_fault := None |}.

Definition env_fault : env (filedata := stored) :=
  {| uuid4 := py "123e4567-e89b-42d3-a456-426614174000";
     utcnow := 0;
     write_fault := Some (py "[Errno 28] No space left on device", None) |}.

Definition empty_dir : storage (filedata := stored) :=
  Directory {| entries := ∅; listdir_error := None |}.

Definition hello : request :=
  JsonRequest (Some (JDict [(py "content", jstr "hello world");
                            (py "filename", jstr "a.txt")])).

Definition regular (v : json) : node (filedata := stored) :=
  {| node_stat := Ok {| st_size := 2; st_ctime := 0 |}; node_read := Ok (Text v) |}.

(** A storage directory holding one file, named [a.json.json]. *)
Definition dir_double_suffix : storage (filedata := stored) :=
  Directory {| entries := {[ py "a.json.json" := regular (JDict []) ]};
               listdir_error := None |}.

(** An upload under another field name than [file]. *)
Definition upload_other : request :=
  FormRequest (Multipart [ {| part_name := py "attachment";
                              part_filename := Some (py "notes.txt");
                              part_data := [] |} ]).

(** One byte of content. *)
Definition one_char : request :=
  JsonRequest (Some (JDict [(py "content", jstr "x")])).


(** A storage path that cannot be created. *)
Definition unavailable : storage (filedata := stored) :=
  NoDirectory (Some (py "[Errno 13] Permission denied")).

(** A directory that cannot be listed. *)
Definition unlistable : directory (filedata := stored) :=
  {| entries := ∅; listdir_error := Some (py "[Errno 13] Permission denied") |}.

(** A directory with a file that is not JSON. *)
Definition dir_garbage : storage (filedata := stored) :=
  Directory {| entries := {[ py "bad.json" :=
                               {| node_stat := Ok {| st_size := 1; st_ctime := 0 |};
                                  node_read := Ok (Garbage (py "Expecting value")) |} ]};
               listdir_error := None |}.

(** The answer to [hello] on an empty directory, and the directory after. *)
Definition hello_answer : outcome * storage :=
  process_document dump size iso parser cfg0 env0 hello empty_dir.

Definition hello_body : json :=
  match fst hello_answer with
  | Response _ body => body
  | Unhandled _ => JNull
  end.

Definition hello_storage : storage := snd hello_answer.

(** The [result] dict of [hello], before its [storage] member is set. *)
Definition hello_result : pydict :=
  build_result cfg0 (uuid4 env0) (timestamp_z iso (utcnow env0))
    (jstr "a.txt") (py "hello world") (map Utf8.byte_of_N (py "hello world")).

(** A directory with one stored document and one file that is not JSON. *)
Definition dir_mixed : directory (filedata := stored) :=
  {| entries := {[ py "0a1b.json" := regular (JDict [(py "document_id", jstr "0a1b")]);
                   py "notes.txt" := regular JNull ]};
     listdir_error := None |}.

(** The answer of the listing of [dir_mixed]. *)
Definition mixed_listing : json :=
  match fst (list_documents iso (Directory dir_mixed)) with
  | Response _ body => body
  | Unhandled _ => JNull
  end.

(** The answer of the listing after [hello] was processed. *)
Definition hello_listing : json :=
  match fst (list_documents iso hello_storage) with
  | Response _ body => body
  | Unhandled _ => JNull
  end.

(** An upload under the name [file] with bytes that are not UTF-8. *)
Definition upload_bytes : request :=
  FormRequest (Multipart [ {| part_name := py "file";
                              part_filename := Some (py "blob.bin");
                              part_data := [x68; xff; xfe; x69] |} ]).

(** An upload under the name [file] with an empty filename. *)
Definition upload_unnamed : request :=
  FormRequest (Multipart [ {| part_name := py "file";
                              part_filename := Some [];
                              part_data := [x68] |} ]).

(** A text field under the name [file] (a part without a filename). *)
Definition field_named_file : request :=
  FormRequest (Multipart [ {| part_name := py "file";
                              part_filename := None;
                              part_data := [x68] |} ]).

(** One more file part than the parser's limit, none under the name
    [file]. *)
Definition many_parts : request :=
  FormRequest (Multipart (repeat {| part_name := py "attachment";
                                    part_filename := Some (py "notes.txt");
                                    part_data := [] |} 1001)).



End Demo.

Import Service.

(** * Properties *)

(** ** Strings *)

Lemma pystr_eqb_eq (a b : pystr) : pystr_eqb a b = true <-> a = b.
Proof.
  revert b. induction a as [|x a IH]; intros [|y b]; simpl; try easy.
  rewrite andb_true_iff, N.eqb_eq, IH. split.
  - intros [-> ->]. reflexivity.
  - intros H. injection H as -> ->. auto.
Qed.

Lemma pystr_eqb_refl (a : pystr) : pystr_eqb a a = true.
Proof. apply pystr_eqb_eq. reflexivity. Qed.

Lemma pystr_eqb_nil (a : pystr) : pystr_eqb a [] = true <-> a = [].
Proof. apply pystr_eqb_eq. Qed.

(** [split] counts tokens the way the specification words it: a token in
    progress ([cur] not empty) is one more than the starts still to come. *)
Lemma split_from_length (s cur : pystr) :
  length (split_from cur s)
  = match cur with
    | [] => Spec.token_starts true s
    | _ => S (Spec.token_starts false s)
    end.
Proof.
  revert cur. induction s as [|c s IH]; intros cur; simpl.
  - destruct cur; reflexivity.
  - destruct (is_space c) eqn:Hc; simpl.
    + destruct cur; simpl; rewrite (IH []); simpl; try rewrite andb_false_r; reflexivity.
    + rewrite (IH (c :: cur)). destruct cur; simpl; reflexivity.
Qed.

Lemma split_length (s : pystr) : length (split s) = Spec.whitespace_tokens s.
Proof. unfold split. rewrite split_from_length. reflexivity. Qed.

(** No token of [split] is empty, and none holds whitespace. *)
Lemma split_from_tokens (s cur : pystr) (t : pystr) :
  Forall (fun c => is_space c = false) cur ->
  In t (split_from cur s) ->
  t <> [] /\ Forall (fun c => is_space c = false) t.
Proof.
  revert cur. induction s as [|c s IH]; intros cur Hcur; simpl.
  - destruct cur as [|x cur]; simpl; [tauto|].
    intros [<-|[]]. split.
    + intros H. apply (f_equal (@length N)) in H.
      rewrite length_app in H. simpl in H. lia.
    + apply Forall_rev in Hcur. exact Hcur.
  - destruct (is_space c) eqn:Hc.
    + destruct cur as [|x cur].
      * apply IH. constructor.
      * intros [<-|Hin].
        -- split.
           ++ intros H. apply (f_equal (@length N)) in H. simpl in H.
              rewrite length_app in H. simpl in H. lia.
           ++ apply Forall_rev in Hcur. exact Hcur.
        -- apply (IH []); [constructor | exact Hin].
    + apply IH. constructor; assumption.
Qed.

(** ** UTF-8 *)

Lemma encode_char_length (c : N) (bs : list byte) :
  Utf8.encode_char c = Some bs -> length bs = Spec.utf8_width c.
Proof.
  unfold Utf8.encode_char, Spec.utf8_width.
  destruct (c <? 128)%N; [intros [= <-]; reflexivity|].
  destruct (c <? 2048)%N; [intros [= <-]; reflexivity|].
  destruct (c <? 65536)%N.
  - destruct (Utf8.is_surrogate c); [discriminate|]. intros [= <-]. reflexivity.
  - destruct (c <? 1114112)%N; [|discriminate]. intros [= <-]. reflexivity.
Qed.

Lemma encode_length (s : pystr) (bs : list byte) :
  Utf8.encode s = Some bs -> length bs = Spec.utf8_length s.
Proof.
  revert bs. induction s as [|c s IH]; simpl; intros bs.
  - intros [= <-]. reflexivity.
  - destruct (Utf8.encode_char c) as [b|] eqn:Hc; [|discriminate].
    destruct (Utf8.encode s) as [r|]; [|discriminate].
    intros [= <-]. rewrite length_app, (IH r eq_refl).
    rewrite (encode_char_length _ _ Hc). reflexivity.
Qed.

Lemma to_N_byte_of_N (n : N) : (n < 256)%N -> Byte.to_N (Utf8.byte_of_N n) = n.
Proof.
  intros Hn. unfold Utf8.byte_of_N.
  destruct (Byte.of_N n) as [b|] eqn:E; simpl.
  - apply Byte.to_of_N. exact E.
  - apply Byte.of_N_None_iff in E. lia.
Qed.

(** Quotient and remainder by 64, as equations [lia] can use. *)
Lemma div64 (c : N) : exists q r, (c = 64 * q + r /\ r < 64 /\ c / 64 = q /\ c mod 64 = r)%N.
Proof.
  exists (c / 64)%N, (c mod 64)%N. repeat split.
  - apply N.div_mod. discriminate.
  - apply N.mod_lt. discriminate.
Qed.

Ltac split64 c q r :=
  let H := fresh "H" in
  destruct (div64 c) as (q & r & H & ? & ? & ?).

Ltac btest :=
  repeat match goal with
    | |- context [(?a <? ?b)%N] =>
        let E := fresh "E" in
        destruct (a <? b)%N eqn:E;
        [apply N.ltb_lt in E | apply N.ltb_ge in E]; try lia
    | |- context [(?a <=? ?b)%N] =>
        let E := fresh "E" in
        destruct (a <=? b)%N eqn:E;
        [apply N.leb_le in E | apply N.leb_gt in E]; try lia
    end.

Lemma decode_one_encode_char (c : N) (b : list byte) (rest : list N) :
  Utf8.encode_char c = Some b ->
  Utf8.decode_one (map Byte.to_N b ++ rest) = Some (c, length b).
Proof.
  unfold Utf8.encode_char.
  destruct (c <? 128)%N eqn:E1.
  { apply N.ltb_lt in E1. intros [= <-]. simpl.
    rewrite to_N_byte_of_N by lia. apply N.ltb_lt in E1. rewrite E1. reflexivity. }
  apply N.ltb_ge in E1.
  split64 c q1 r1. replace (c / 4096)%N with ((c / 64) / 64)%N
    by (rewrite N.Div0.div_div; reflexivity).
  replace (c / 262144)%N with (((c / 64) / 64) / 64)%N
    by (rewrite !N.Div0.div_div; reflexivity).
  rewrite H1, H2. split64 q1 q2 r2. rewrite H5, H6. split64 q2 q3 r3. rewrite H9, ?H10.
  destruct (c <? 2048)%N eqn:E2.
  { apply N.ltb_lt in E2. intros [= <-]. simpl.
    rewrite !to_N_byte_of_N by lia. unfold Utf8.is_cont. btest. simpl.
    do 2 f_equal. lia. }
  apply N.ltb_ge in E2.
  destruct (c <? 65536)%N eqn:E3.
  { apply N.ltb_lt in E3. destruct (Utf8.is_surrogate c) eqn:Es; [discriminate|].
    intros [= <-]. simpl.
    rewrite !to_N_byte_of_N by lia. unfold Utf8.is_cont. btest. simpl.
    replace ((224 + q2 - 224) * 4096 + (128 + r2 - 128) * 64 + (128 + r1 - 128))%N
      with c by lia.
    rewrite Es. simpl. btest. reflexivity. }
  apply N.ltb_ge in E3.
  destruct (c <? 1114112)%N eqn:E4; [|discriminate].
  apply N.ltb_lt in E4. intros [= <-]. simpl.
  rewrite !to_N_byte_of_N by lia. unfold Utf8.is_cont. btest. simpl.
  replace ((240 + q3 - 240) * 262144 + (128 + r3 - 128) * 4096
           + (128 + r2 - 128) * 64 + (128 + r1 - 128))%N with c by lia.
  btest. reflexivity.
Qed.

Lemma decode_from_skip (l1 l2 : list N) :
  Utf8.decode_from (length l1) (l1 ++ l2) = Utf8.decode_from 0 l2.
Proof. induction l1 as [|x l1 IH]; simpl; [reflexivity | exact IH]. Qed.

Arguments Utf8.decode_one : simpl never.

Lemma decode_from_0_cons (x : N) (l : list N) :
  Utf8.decode_from 0 (x :: l)
  = match Utf8.decode_one (x :: l) with
    | Some (c, n) => c :: Utf8.decode_from (n - 1) l
    | None => Utf8.decode_from 0 l
    end.
Proof. reflexivity. Qed.

Lemma encode_char_nonempty (c : N) (b : list byte) :
  Utf8.encode_char c = Some b -> b <> [].
Proof.
  intros H Hb. apply encode_char_length in H. subst b.
  unfold Spec.utf8_width in H. simpl in H.
  repeat match goal with H : context [if ?x then _ else _] |- _ => destruct x end;
    discriminate.
Qed.

(** Well-formed UTF-8 is decoded exactly. *)
Lemma decode_encode (s : pystr) (bs : list byte) :
  Utf8.encode s = Some bs -> Utf8.decode_ignore bs = s.
Proof.
  unfold Utf8.decode_ignore. revert bs.
  induction s as [|c s IH]; simpl; intros bs.
  - intros [= <-]. reflexivity.
  - destruct (Utf8.encode_char c) as [b|] eqn:Hc; [|discriminate].
    destruct (Utf8.encode s) as [r|]; [|discriminate].
    intros [= <-]. rewrite map_app.
    pose proof (decode_one_encode_char c b (map Byte.to_N r) Hc) as Hd.
    pose proof (encode_char_nonempty c b Hc) as Hne.
    destruct b as [|b0 b]; [congruence|].
    cbn [map app] in Hd |- *. rewrite decode_from_0_cons, Hd. f_equal.
    replace (length (b0 :: b) - 1)%nat with (length (map Byte.to_N b))
      by (rewrite length_map; simpl; lia).
    rewrite decode_from_skip. apply IH. reflexivity.
Qed.

(** What the decoder yields can always be encoded again: it holds no
    surrogate and nothing above U+10FFFF. *)
Lemma decode_one_encodable (bs : list N) (c : N) (n : nat) :
  Utf8.decode_one bs = Some (c, n) -> Utf8.encode_char c <> None.
Proof.
  unfold Utf8.decode_one.
  destruct bs as [|b0 t]; [discriminate|].
  destruct (b0 <? 128)%N eqn:E0.
  { intros [= <- <-]. unfold Utf8.encode_char. rewrite E0. discriminate. }
  destruct ((194 <=? b0) && (b0 <=? 223))%N eqn:E1.
  { destruct t as [|b1 t]; [discriminate|].
    destruct (Utf8.is_cont b1) eqn:C1; [|discriminate].
    intros [= <- <-]. unfold Utf8.is_cont in C1.
    apply andb_true_iff in E1 as [?%N.leb_le ?%N.leb_le].
    apply andb_true_iff in C1 as [?%N.leb_le ?%N.leb_le].
    unfold Utf8.encode_char. btest; discriminate. }
  destruct ((224 <=? b0) && (b0 <=? 239))%N eqn:E2.
  { destruct t as [|b1 [|b2 t]]; try discriminate.
    match goal with |- context [if ?x then _ else _] => destruct x eqn:C end;
      [|discriminate].
    intros [= <- <-].
    apply andb_true_iff in C as [C Hs]. apply andb_true_iff in C as [C _].
    apply andb_true_iff in C as [C1 C2]. unfold Utf8.is_cont in C1, C2.
    apply andb_true_iff in E2 as [?%N.leb_le ?%N.leb_le].
    apply andb_true_iff in C1 as [?%N.leb_le ?%N.leb_le].
    apply andb_true_iff in C2 as [?%N.leb_le ?%N.leb_le].
    apply negb_true_iff in Hs.
    unfold Utf8.encode_char. rewrite Hs. btest; discriminate. }
  destruct ((240 <=? b0) && (b0 <=? 244))%N eqn:E3; [|discriminate].
  destruct t as [|b1 [|b2 [|b3 t]]]; try discriminate.
  match goal with |- context [if ?x then _ else _] => destruct x eqn:C end;
    [|discriminate].
  intros [= <- <-].
  apply andb_true_iff in C as [C Hlt]. apply N.ltb_lt in Hlt.
  apply andb_true_iff in C as [C Hge]. apply N.leb_le in Hge.
  unfold Utf8.encode_char. btest; discriminate.
Qed.

Lemma decode_from_encodable (bs : list N) (skip : nat) :
  Utf8.encode (Utf8.decode_from skip bs) <> None.
Proof.
  revert skip. induction bs as [|b bs IH]; intros skip; simpl; [discriminate|].
  destruct skip as [|k]; [|apply IH].
  destruct (Utf8.decode_one (b :: bs)) as [[c n]|] eqn:Hd; [|apply IH].
  cbn [Utf8.encode]. pose proof (decode_one_encodable _ _ _ Hd) as Hc.
  destruct (Utf8.encode_char c); [|congruence].
  specialize (IH (n - 1)%nat).
  destruct (Utf8.encode (Utf8.decode_from (n - 1) bs)); [discriminate|congruence].
Qed.

Lemma decode_ignore_encodable (bs : list byte) :
  exists out, Utf8.encode (Utf8.decode_ignore bs) = Some out.
Proof.
  unfold Utf8.decode_ignore.
  pose proof (decode_from_encodable (map Byte.to_N bs) 0%nat) as Hne.
  destruct (Utf8.encode (Utf8.decode_from 0 (map Byte.to_N bs))) as [out|]; [|congruence].
  exists out. reflexivity.
Qed.

Lemma lstrip_nil_iff (s : pystr) : lstrip s = [] <-> forallb is_space s = true.
Proof.
  induction s as [|c s IH]; simpl; [tauto|].
  destruct (is_space c); simpl; [exact IH|]. split; discriminate.
Qed.

Lemma forallb_lstrip (s : pystr) :
  forallb is_space (lstrip s) = true <-> forallb is_space s = true.
Proof.
  induction s as [|c s IH]; simpl; [tauto|].
  destruct (is_space c) eqn:Hc; simpl; [exact IH|].
  rewrite Hc. simpl. tauto.
Qed.

Lemma forallb_rev (f : N -> bool) (s : pystr) : forallb f (rev s) = forallb f s.
Proof.
  induction s as [|c s IH]; simpl; [reflexivity|].
  rewrite forallb_app, IH. simpl. rewrite andb_true_r. apply andb_comm.
Qed.

Lemma rev_nil_iff (s : pystr) : rev s = [] <-> s = [].
Proof.
  split; [|intros ->; reflexivity].
  intros H. apply (f_equal (@rev N)) in H. rewrite rev_involutive in H. exact H.
Qed.

(** [strip] leaves nothing exactly when every character is whitespace. *)
Lemma strip_nil_iff (s : pystr) : strip s = [] <-> forallb is_space s = true.
Proof.
  unfold strip, rstrip.
  rewrite rev_nil_iff, lstrip_nil_iff, forallb_rev. apply forallb_lstrip.
Qed.

Lemma existsb_negb_forallb (f : N -> bool) (s : pystr) :
  existsb (fun c => negb (f c)) s = negb (forallb f s).
Proof.
  induction s as [|c s IH]; simpl; [reflexivity|].
  rewrite IH, negb_andb. reflexivity.
Qed.

(** The flag of the source is the specification's "non-empty after trimming
    whitespace". *)
Lemma key_configured_spec (cfg : Config) :
  _embeddings_key_configured cfg = Spec.nonempty_after_trim (EMBEDDINGS_API_KEY cfg).
Proof.
  unfold _embeddings_key_configured, Spec.nonempty_after_trim.
  destruct (EMBEDDINGS_API_KEY cfg) as [k|]; [|reflexivity].
  rewrite existsb_negb_forallb.
  destruct k as [|c k]; [reflexivity|]. f_equal.
  destruct (forallb is_space (c :: k)) eqn:Hf.
  - apply pystr_eqb_nil, strip_nil_iff. exact Hf.
  - destruct (pystr_eqb (strip (c :: k)) []) eqn:He; [|reflexivity].
    apply pystr_eqb_nil, strip_nil_iff in He. congruence.
Qed.

(** ** The size check *)

Lemma exceeds_over_limit (size : nat) (max : Z) :
  exceeds (content_size_mb size) max = true <-> Spec.over_limit size max.
Proof.
  unfold exceeds, Spec.over_limit. rewrite negb_true_iff.
  split.
  - intros H. destruct (Z_lt_le_dec (max * (1024 * 1024)) (Z.of_nat size)) as [|Hle];
      [assumption|]. exfalso.
    assert (Hq : Qle_bool (content_size_mb size) (inject_Z max) = true).
    { apply Qle_bool_iff. unfold content_size_mb, Qle, Qdiv, Qmult, Qinv, inject_Z.
      simpl. lia. }
    congruence.
  - intros H. destruct (Qle_bool (content_size_mb size) (inject_Z max)) eqn:Hq;
      [|reflexivity]. exfalso.
    apply Qle_bool_iff in Hq.
    unfold content_size_mb, Qle, Qdiv, Qmult, Qinv, inject_Z in Hq.
    simpl in Hq. lia.
Qed.

Lemma check_size_over (cfg : Config) (bs : list byte) :
  Spec.over_limit (length bs) (MAX_DOCUMENT_SIZE_MB cfg) ->
  check_size cfg bs
  = inl (Response 413
           (JDict [(py "error",
                    JStr (py "Document exceeds maximum size of "
                          ++ str_of_int (MAX_DOCUMENT_SIZE_MB cfg) ++ py " MB"))])).
Proof.
  intros H. apply exceeds_over_limit in H. unfold check_size. rewrite H. reflexivity.
Qed.

Lemma check_size_within (cfg : Config) (bs : list byte) :
  ~ Spec.over_limit (length bs) (MAX_DOCUMENT_SIZE_MB cfg) ->
  check_size cfg bs = inr tt.
Proof.
  intros H. unfold check_size.
  destruct (exceeds (content_size_mb (length bs)) (MAX_DOCUMENT_SIZE_MB cfg)) eqn:E;
    [|reflexivity].
  apply exceeds_over_limit in E. contradiction.
Qed.

(** ** The views *)

Section Claims.

Context {filedata : Type}.
Context (json_dump : json -> filedata).
Context (json_load : filedata -> io json).
Context (data_size : filedata -> Z).
Context (isoformat : Q -> pystr).
Context (form_too_large : form -> bool).

Implicit Types (cfg : Config) (e : env (filedata := filedata)) (r : request).
Implicit Types (st : storage (filedata := filedata)).

Abbreviation process := (process_document json_dump data_size isoformat form_too_large).

(** An early exit of the preparation is the answer, and storage is not
    touched. *)
Lemma process_early cfg e r st o :
  prepare isoformat form_too_large cfg e r = inl o -> process cfg e r st = (o, st).
Proof. intros H. unfold process_document. rewrite H. reflexivity. Qed.

(** Once the content is resolved to a string that can be encoded, only the
    size check stands between the request and the [result] dict. *)
Lemma prepare_resolved cfg e r s fname bs :
  resolve_input form_too_large r = inr (JStr s, fname) ->
  Utf8.encode s = Some bs ->
  prepare isoformat form_too_large cfg e r
  = bind (check_size cfg bs)
      (fun _ => inr (build_result cfg (uuid4 e) (timestamp_z isoformat (utcnow e))
                       fname s bs)).
Proof.
  intros Hr He. unfold prepare. rewrite Hr. simpl. rewrite He. reflexivity.
Qed.

Lemma process_ready cfg e r st result :
  prepare isoformat form_too_large cfg e r = inr result ->
  process cfg e r st
  = (Response 200
       (JDict (result ++ [(py "storage", fst (persist json_dump data_size cfg e result st))])),
     snd (persist json_dump data_size cfg e result st))
  /\ dict_get result (py "storage") = None.
Proof.
  intros H. unfold process_document. rewrite H.
  assert (Hres : exists f s bs,
    result = build_result cfg (uuid4 e) (timestamp_z isoformat (utcnow e)) f s bs).
  { unfold prepare in H.
    destruct (resolve_input form_too_large r) as [o|[c f]]; [discriminate|]. simpl in H.
    destruct (encode_content c) as [o|[s bs]]; [discriminate|]. simpl in H.
    destruct (check_size cfg bs) as [o|[]]; [discriminate|]. simpl in H.
    injection H as <-. eauto. }
  destruct Hres as (f & s & bs & ->).
  destruct (persist json_dump data_size cfg e _ st) as [o st'].
  split; reflexivity.
Qed.

(** C2 (amended). A request that is not JSON, whose form the parser
    accepts, and that carries file uploads, none of them under the name
    [file], is answered 400 with body [{"error": "No file provided"}]; storage
    is left as it was. *)
Theorem C2_no_file_field cfg e r st files :
  is_json r = false ->
  request_files form_too_large r = Some files ->
  files <> [] ->
  files_get files (py "file") = None ->
  process cfg e r st
  = (Response 400 (JDict [(py "error", jstr "No file provided")]), st).
Proof.
  intros Hj Hfiles Hf Hg. apply process_early.
  unfold prepare, resolve_input. rewrite Hj, Hfiles, Hg.
  destruct files; [congruence|]. reflexivity.
Qed.

(** C4. Content whose UTF-8 encoding is strictly larger than
    [MAX_DOCUMENT_SIZE_MB] megabytes is answered 413 with the message that
    names the limit, and the storage directory is left exactly as it was. *)
Theorem C4_too_large cfg e r st s fname bs :
  resolve_input form_too_large r = inr (JStr s, fname) ->
  Utf8.encode s = Some bs ->
  Spec.over_limit (length bs) (MAX_DOCUMENT_SIZE_MB cfg) ->
  process cfg e r st
  = (Response 413
       (JDict [(py "error",
                JStr (py "Document exceeds maximum size of "
                      ++ str_of_int (MAX_DOCUMENT_SIZE_MB cfg) ++ py " MB"))]),
     st).
Proof.
  intros Hr He Hover. apply process_early.
  rewrite (prepare_resolved cfg e r s fname bs Hr He).
  rewrite (check_size_over cfg bs Hover). reflexivity.
Qed.

(** C5. For content within the size limit the answer is 200 and its
    [statistics] give the number of characters, the number of
    whitespace-delimited tokens and the UTF-8 byte length of the content. *)
Theorem C5_statistics cfg e r st s fname bs :
  resolve_input form_too_large r = inr (JStr s, fname) ->
  Utf8.encode s = Some bs ->
  ~ Spec.over_limit (length bs) (MAX_DOCUMENT_SIZE_MB cfg) ->
  exists body st',
    process cfg e r st = (Response 200 body, st')
    /\ json_path body ["statistics"; "character_count"]%string
       = Some (JInt (Z.of_nat (length s)))
    /\ json_path body ["statistics"; "word_count"]%string
       = Some (JInt (Z.of_nat (Spec.whitespace_tokens s)))
    /\ json_path body ["statistics"; "size_bytes"]%string
       = Some (JInt (Z.of_nat (Spec.utf8_length s))).
Proof.
  intros Hr He Hin.
  pose proof (prepare_resolved cfg e r s fname bs Hr He) as Hp.
  rewrite (check_size_within cfg bs Hin) in Hp. simpl in Hp.
  destruct (process_ready cfg e r st _ Hp) as [-> _].
  eexists _, _. split; [reflexivity|].
  rewrite <- split_length, <- (encode_length s bs He).
  repeat split; reflexivity.
Qed.



(** *** Storage failures *)

Lemma persist_unavailable cfg e result err :
  persist json_dump data_size cfg e result (NoDirectory (Some err))
  = (JDict [(py "saved", JBool false); (py "reason", jstr "Storage not available")],
     NoDirectory (Some err)).
Proof. reflexivity. Qed.

Lemma persist_write_fault cfg e result st msg partial :
  fst (_ensure_storage_directory st) = true ->
  write_fault e = Some (msg, partial) ->
  fst (persist json_dump data_size cfg e result st)
  = JDict [(py "saved", JBool false); (py "error", JStr msg)].
Proof.
  intros Hav Hw. unfold persist.
  destruct st as [[err|]|d]; simpl in *; try discriminate;
    unfold write_json; rewrite Hw; destruct partial; reflexivity.
Qed.

(** The status of [process_document] is decided before storage is touched:
    no state of the directory and no write fault changes it. *)
Lemma process_status_storage_independent cfg e e' r st st' :
  uuid4 e' = uuid4 e -> utcnow e' = utcnow e ->
  status_of (fst (process cfg e r st)) = status_of (fst (process cfg e' r st')).
Proof.
  intros Hu Ht. unfold process_document.
  assert (Hp : prepare isoformat form_too_large cfg e' r = prepare isoformat form_too_large cfg e r)
    by (unfold prepare; rewrite Hu, Ht; reflexivity).
  rewrite Hp. destruct (prepare isoformat form_too_large cfg e r) as [o|result]; [reflexivity|].
  destruct (persist json_dump data_size cfg e result st),
           (persist json_dump data_size cfg e' result st'). reflexivity.
Qed.

Lemma list_documents_status st :
  exists body st', list_documents isoformat st = (Response 200 body, st').
Proof.
  unfold list_documents.
  destruct (_ensure_storage_directory st) as [[|] [err|d]]; try (eexists _, _; reflexivity).
  destruct (os_listdir d) as [names|msg]; [|eexists _, _; reflexivity].
  destruct (list_files isoformat d names); eexists _, _; reflexivity.
Qed.

(** C6. No failure of storage turns into an error status. [list_documents]
    always answers 200, with an empty list and an [error] member when the
    directory is unavailable or cannot be listed. Whatever the request, the
    status of [process_document] is the same in every state of the storage
    and under every write fault; for a request that passed validation it is
    200, the body being the whole record with a [storage] member that tells
    what happened. *)
Theorem C6_storage_failures_degrade cfg e r st :
  (exists body st', list_documents isoformat st = (Response 200 body, st'))
  /\ (forall err, st = NoDirectory (Some err) ->
        list_documents isoformat st
        = (Response 200 (JDict [(py "documents", JList []);
                                (py "error", jstr "Storage not available")]), st))
  /\ (forall d msg, st = Directory d ->
        (os_listdir d = Raise msg
         \/ exists names, os_listdir d = Ok names
                          /\ list_files isoformat d names = Raise msg) ->
        list_documents isoformat st
        = (Response 200 (JDict [(py "documents", JList []);
                                (py "error", JStr msg)]), st))
  /\ (forall e' st', uuid4 e' = uuid4 e -> utcnow e' = utcnow e ->
        status_of (fst (process cfg e' r st')) = status_of (fst (process cfg e r st)))
  /\ (forall result, prepare isoformat form_too_large cfg e r = inr result ->
        status_of (fst (process cfg e r st)) = 200
        /\ (forall err, st = NoDirectory (Some err) ->
              process cfg e r st
              = (Response 200
                   (JDict (result
                           ++ [(py "storage",
                                JDict [(py "saved", JBool false);
                                       (py "reason", jstr "Storage not available")])])),
                 st))
        /\ (forall msg partial,
              fst (_ensure_storage_directory st) = true ->
              write_fault e = Some (msg, partial) ->
              fst (process cfg e r st)
              = Response 200
                  (JDict (result
                          ++ [(py "storage",
                               JDict [(py "saved", JBool false);
                                      (py "error", JStr msg)])])))).
Proof.
  split; [apply list_documents_status|].
  split; [intros err ->; reflexivity|].
  split.
  { intros d msg -> [Hl|(names & Hl & Hf)]; unfold list_documents; simpl;
      rewrite Hl; [reflexivity|]. rewrite Hf. reflexivity. }
  split.
  { intros e' st' Hu Ht. symmetry.
    apply (process_status_storage_independent cfg e e' r st st' Hu Ht). }
  intros result Hp.
  pose proof (process_ready cfg e r st result Hp) as [Hproc _].
  split; [rewrite Hproc; reflexivity|].
  split.
  { intros err ->. rewrite Hproc, persist_unavailable. reflexivity. }
  intros msg partial Hav Hw. rewrite Hproc. simpl.
  rewrite (persist_write_fault cfg e result st msg partial Hav Hw). reflexivity.
Qed.

(** *** Reading a document back *)

(** C7. [get_document] answers 404 with [{"error": "Document not found"}]
    exactly when the file does not exist; an existing file that parses is
    returned with 200; an existing file that cannot be read or parsed gives
    500 with the message of the failure. *)
Theorem C7_get_document st doc_id :
  let name := doc_id ++ py ".json" in
  (get_document json_load st doc_id
   = Response 404 (JDict [(py "error", jstr "Document not found")])
   <-> os_path_exists st name = false)
  /\ (forall data v,
        os_path_exists st name = true ->
        read_file st name = Ok data -> json_load data = Ok v ->
        get_document json_load st doc_id = Response 200 v)
  /\ (forall msg,
        os_path_exists st name = true ->
        (read_file st name = Raise msg
         \/ exists data, read_file st name = Ok data /\ json_load data = Raise msg) ->
        get_document json_load st doc_id
        = Response 500 (JDict [(py "error", JStr msg)])).
Proof.
  intros name. unfold get_document. fold name.
  destruct (os_path_exists st name) eqn:Hex; simpl.
  - split.
    + split; [|discriminate].
      destruct (read_file st name) as [data|msg]; [|discriminate].
      destruct (json_load data); discriminate.
    + split.
      * intros data v _ -> ->. reflexivity.
      * intros msg _ [->|(data & -> & ->)]; reflexivity.
  - split; [tauto|]. split; intros; discriminate.
Qed.

(** *** The embeddings key *)

Lemma build_result_key cfg k1 k2 doc_id ts fname s bs :
  _embeddings_key_configured (with_key cfg k1)
  = _embeddings_key_configured (with_key cfg k2) ->
  build_result (with_key cfg k1) doc_id ts fname s bs
  = build_result (with_key cfg k2) doc_id ts fname s bs.
Proof. intros H. unfold build_result. rewrite H. reflexivity. Qed.

(** C8. Two keys that agree on "non-empty after trimming whitespace" give
    the same answer and the same storage on every route; the flag that is
    exposed is that predicate. *)
Theorem C8_key_not_exposed cfg k1 k2 e ep st :
  Spec.nonempty_after_trim k1 = Spec.nonempty_after_trim k2 ->
  handle json_dump json_load data_size isoformat form_too_large (with_key cfg k1) e ep st
  = handle json_dump json_load data_size isoformat form_too_large (with_key cfg k2) e ep st
  /\ _embeddings_key_configured (with_key cfg k1) = Spec.nonempty_after_trim k1.
Proof.
  intros Hk. split; [|apply key_configured_spec].
  assert (Hflag : _embeddings_key_configured (with_key cfg k1)
                  = _embeddings_key_configured (with_key cfg k2)).
  { rewrite !key_configured_spec. exact Hk. }
  destruct ep as [| |r| |doc_id]; cbn [handle]; try reflexivity.
  - unfold root. rewrite Hflag. reflexivity.
  - unfold process_document.
    assert (Hprep : prepare isoformat form_too_large (with_key cfg k1) e r
                    = prepare isoformat form_too_large (with_key cfg k2) e r).
    { unfold prepare.
      destruct (resolve_input form_too_large r) as [o|cf]; [reflexivity|]. cbn [bind].
      destruct (encode_content (fst cf)) as [o|sb]; [reflexivity|]. cbn [bind].
      change (check_size (with_key cfg k1) (snd sb))
        with (check_size (with_key cfg k2) (snd sb)).
      destruct (check_size (with_key cfg k2) (snd sb)) as [o|[]]; [reflexivity|].
      cbn [bind]. rewrite (build_result_key cfg k1 k2 _ _ _ _ _ Hflag). reflexivity. }
    rewrite Hprep.
    destruct (prepare isoformat form_too_large (with_key cfg k2) e r) as [o|result]; [reflexivity|].
    change (persist json_dump data_size (with_key cfg k1) e result st)
      with (persist json_dump data_size (with_key cfg k2) e result st).
    reflexivity.
Qed.

(** *** Round trip *)

Lemma dict_get_app_fresh (d : pydict) (k : pystr) (v : json) :
  dict_get d k = None -> dict_get (d ++ [(k, v)]) k = Some v.
Proof.
  induction d as [|[k' v'] d IH]; simpl.
  - rewrite pystr_eqb_refl. reflexivity.
  - destruct (pystr_eqb k' k); [discriminate|]. exact IH.
Qed.

Lemma dict_get_app_other (d : pydict) (k k' : pystr) (v : json) :
  pystr_eqb k k' = false -> dict_get (d ++ [(k, v)]) k' = dict_get d k'.
Proof.
  intros Hne. induction d as [|[k0 v0] d IH]; simpl.
  - rewrite Hne. reflexivity.
  - destruct (pystr_eqb k0 k'); [reflexivity|]. exact IH.
Qed.

Lemma dict_remove_app_fresh (d : pydict) (k : pystr) (v : json) :
  dict_get d k = None -> dict_remove (d ++ [(k, v)]) k = d.
Proof.
  induction d as [|[k' v'] d IH]; simpl.
  - rewrite pystr_eqb_refl. reflexivity.
  - destruct (pystr_eqb k' k); [discriminate|]. intros H. rewrite (IH H). reflexivity.
Qed.

Lemma resolve_input_early r o : resolve_input form_too_large r = inl o -> status_of o <> 200.
Proof.
  unfold resolve_input.
  repeat match goal with
         | |- context [match ?x with _ => _ end] => destruct x
         end;
    intros [= <-]; discriminate.
Qed.

Lemma encode_content_early (c : json) o :
  encode_content c = inl o -> status_of o <> 200.
Proof.
  unfold encode_content. destruct c; try (intros [= <-]; discriminate).
  destruct (Utf8.encode s); intros [= <-]. discriminate.
Qed.

Lemma check_size_early cfg (bs : list byte) o :
  check_size cfg bs = inl o -> status_of o <> 200.
Proof.
  unfold check_size. destruct (exceeds _ _); intros [= <-]. discriminate.
Qed.

(** What leaves [prepare] early is never a 200. *)
Lemma prepare_early_status cfg e r o :
  prepare isoformat form_too_large cfg e r = inl o -> status_of o <> 200.
Proof.
  unfold prepare.
  destruct (resolve_input form_too_large r) as [o1|cf] eqn:H1; cbn [bind].
  { intros [= <-]. exact (resolve_input_early r o1 H1). }
  destruct (encode_content (fst cf)) as [o2|sb] eqn:H2; cbn [bind].
  { intros [= <-]. exact (encode_content_early _ o2 H2). }
  destruct (check_size cfg (snd sb)) as [o3|u] eqn:H3; cbn [bind].
  { intros [= <-]. exact (check_size_early cfg _ o3 H3). }
  discriminate.
Qed.

Lemma prepare_document_id cfg e r result :
  prepare isoformat form_too_large cfg e r = inr result ->
  dict_get result (py "document_id") = Some (JStr (uuid4 e)).
Proof.
  unfold prepare. intros H.
  destruct (resolve_input form_too_large r) as [o|[c f]]; [discriminate|]. simpl in H.
  destruct (encode_content c) as [o|[s bs]]; [discriminate|]. simpl in H.
  destruct (check_size cfg bs) as [o|[]]; [discriminate|]. simpl in H.
  injection H as <-. reflexivity.
Qed.

(** C1 (amended). When [process_document] answers 200 with
    [storage.saved] true, reading the document back under the id of the
    answer gives 200 and the answer without its [storage] member: the file is
    written before that member is set. The codec is assumed to read back
    what it wrote. *)
Theorem C1_round_trip_without_storage cfg e r st body st' :
  (forall v, json_load (json_dump v) = Ok v) ->
  process cfg e r st = (Response 200 body, st') ->
  json_path body ["storage"; "saved"]%string = Some (JBool true) ->
  exists d doc_id,
    body = JDict d
    /\ dict_get d (py "document_id") = Some (JStr doc_id)
    /\ get_document json_load st' doc_id
       = Response 200 (JDict (dict_remove d (py "storage"))).
Proof.
  intros Hcodec Hproc Hsaved.
  destruct (prepare isoformat form_too_large cfg e r) as [o|result] eqn:Hp.
  { rewrite (process_early cfg e r st o Hp) in Hproc. injection Hproc as -> _.
    apply prepare_early_status in Hp. simpl in Hp. congruence. }
  destruct (process_ready cfg e r st result Hp) as [Heq Hfresh].
  rewrite Heq in Hproc. injection Hproc as <- <-.
  exists (result ++ [(py "storage", fst (persist json_dump data_size cfg e result st))]),
         (uuid4 e).
  split; [reflexivity|]. split.
  { rewrite dict_get_app_other by reflexivity.
    apply (prepare_document_id cfg e r result Hp). }
  rewrite (dict_remove_app_fresh _ _ _ Hfresh).
  cbn [json_path] in Hsaved. change (py "storage") with (py "storage") in Hsaved.
  rewrite (dict_get_app_fresh _ _ _ Hfresh) in Hsaved.
  unfold persist in *.
  destruct (_ensure_storage_directory st) as [[|] [err|d]]; simpl in Hsaved;
    try discriminate.
  unfold write_json in *. destruct (write_fault e) as [[msg [partial|]]|];
    simpl in Hsaved; try discriminate.
  simpl. unfold get_document, os_path_exists, os_stat, read_file. simpl.
  rewrite lookup_insert_eq. simpl. rewrite Hcodec. reflexivity.
Qed.

End Claims.

(** ** Listing *)

(** A name whose stem holds no dot loses exactly its suffix: this covers
    the files [process_document] writes, whose stems are uuids. *)
Lemma replace_json_suffix_no_dot (stem : pystr) :
  ~ In 46%N stem ->
  replace (stem ++ py ".json") (py ".json") [] = stem.
Proof.
  unfold replace. change (py ".json") with [46; 106; 115; 111; 110]%N.
  induction stem as [|c stem IH]; intros Hdot; [reflexivity|].
  assert (Hc : (46 =? c)%N = false).
  { apply N.eqb_neq. intros <-. apply Hdot. left. reflexivity. }
  cbn [app replace_from startswith]. rewrite Hc. cbn [andb]. f_equal.
  apply IH. intros Hin. apply Hdot. right. exact Hin.
Qed.

(** C3 (failing input). [list_documents] removes every occurrence of
    [.json] from a name, not only the suffix: the file [a.json.json], which
    [get_document] serves under the id [a.json], is listed under the id [a],
    an id under which [get_document] finds nothing. *)
Theorem C3_replace_removes_every_occurrence :
  fst (list_documents Demo.iso Demo.dir_double_suffix)
  = Response 200
      (JDict [(py "documents",
               JList [JDict [(py "document_id", jstr "a");
                             (py "size_bytes", JInt 2);
                             (py "created_at", jstr "2024-01-01T00:00:00Z")]]);
              (py "count", JInt 1)])
  /\ Spec.strip_json_suffix (py "a.json.json") = py "a.json"
  /\ get_document Demo.load Demo.dir_double_suffix (py "a.json")
     = Response 200 (JDict [])
  /\ get_document Demo.load Demo.dir_double_suffix (py "a")
     = Response 404 (JDict [(py "error", jstr "Document not found")]).
Proof. repeat split; vm_compute; reflexivity. Qed.

(** ** Instances *)

Lemma C2_witness :
  is_json Demo.upload_other = false
  /\ process_document Demo.dump Demo.size Demo.iso Demo.parser Demo.cfg0 Demo.env0
       Demo.upload_other Demo.empty_dir
     = (Response 400 (JDict [(py "error", jstr "No file provided")]), Demo.empty_dir).
Proof.
  split; [reflexivity|].
  apply (C2_no_file_field Demo.dump Demo.size Demo.iso Demo.parser Demo.cfg0
           Demo.env0 Demo.upload_other Demo.empty_dir
           [(py "attachment", {| filename := py "notes.txt"; stream := [] |})]);
    [reflexivity | reflexivity | discriminate | reflexivity].
Defined.

(** A request of 1001 file parts, none under the name [file], is not JSON
    and carries uploads, but the form parser rejects it before the field is
    looked up: the answer is 413, not 400. *)
Lemma C2_counterexample :
  is_json Demo.many_parts = false
  /\ length (form_files (Multipart (repeat {| part_name := py "attachment";
                                              part_filename := Some (py "notes.txt");
                                              part_data := [] |} 1001))) = 1001%nat
  /\ files_get (form_files (Multipart (repeat {| part_name := py "attachment";
                                                 part_filename := Some (py "notes.txt");
                                                 part_data := [] |} 1001)))
       (py "file") = None
  /\ process_document Demo.dump Demo.size Demo.iso Demo.parser Demo.cfg0 Demo.env0
       Demo.many_parts Demo.empty_dir
     = (Unhandled RequestEntityTooLarge, Demo.empty_dir)
  /\ status_of (Unhandled RequestEntityTooLarge) = 413.
Proof. repeat split; vm_compute; reflexivity. Qed.

Lemma C4_witness :
  Spec.over_limit 1 0
  /\ process_document Demo.dump Demo.size Demo.iso Demo.parser (Demo.cfg_max 0) Demo.env0
       Demo.one_char Demo.empty_dir
     = (Response 413 (JDict [(py "error",
                              jstr "Document exceeds maximum size of 0 MB")]),
        Demo.empty_dir).
Proof.
  split; [unfold Spec.over_limit; lia|].
  apply (C4_too_large Demo.dump Demo.size Demo.iso Demo.parser (Demo.cfg_max 0) Demo.env0
           Demo.one_char Demo.empty_dir (py "x") (jstr "document.txt") [x78]);
    [reflexivity | reflexivity | unfold Spec.over_limit; simpl; lia].
Defined.

Lemma C5_witness :
  exists body st',
    process_document Demo.dump Demo.size Demo.iso Demo.parser Demo.cfg0 Demo.env0
      Demo.hello Demo.empty_dir = (Response 200 body, st')
    /\ json_path body ["statistics"; "character_count"]%string = Some (JInt 11)
    /\ json_path body ["statistics"; "word_count"]%string = Some (JInt 2)
    /\ json_path body ["statistics"; "size_bytes"]%string = Some (JInt 11).
Proof.
  apply (C5_statistics Demo.dump Demo.size Demo.iso Demo.parser Demo.cfg0 Demo.env0
           Demo.hello Demo.empty_dir (py "hello world") (jstr "a.txt")
           (map Utf8.byte_of_N (py "hello world")));
    [reflexivity | reflexivity | unfold Spec.over_limit; simpl; lia].
Defined.





Lemma C6_witness :
  process_document Demo.dump Demo.size Demo.iso Demo.parser Demo.cfg0 Demo.env0
    Demo.hello Demo.unavailable
  = (Response 200
       (JDict (Demo.hello_result
               ++ [(py "storage",
                    JDict [(py "saved", JBool false);
                           (py "reason", jstr "Storage not available")])])),
     Demo.unavailable)
  /\ fst (process_document Demo.dump Demo.size Demo.iso Demo.parser Demo.cfg0 Demo.env_fault
            Demo.hello Demo.empty_dir)
     = Response 200
         (JDict (Demo.hello_result
                 ++ [(py "storage",
                      JDict [(py "saved", JBool false);
                             (py "error", jstr "[Errno 28] No space left on device")])]))
  /\ list_documents Demo.iso (Directory Demo.unlistable)
     = (Response 200 (JDict [(py "documents", JList []);
                             (py "error", jstr "[Errno 13] Permission denied")]),
        Directory Demo.unlistable).
Proof.
  split; [|split].
  - destruct (C6_storage_failures_degrade Demo.dump Demo.size Demo.iso Demo.parser Demo.cfg0
                Demo.env0 Demo.hello Demo.unavailable)
      as (_ & _ & _ & _ & H).
    destruct (H Demo.hello_result eq_refl) as (_ & Hun & _).
    apply (Hun (py "[Errno 13] Permission denied")). reflexivity.
  - destruct (C6_storage_failures_degrade Demo.dump Demo.size Demo.iso Demo.parser Demo.cfg0
                Demo.env_fault Demo.hello Demo.empty_dir)
      as (_ & _ & _ & _ & H).
    destruct (H Demo.hello_result eq_refl) as (_ & _ & Hw).
    apply (Hw (py "[Errno 28] No space left on device") None); reflexivity.
  - destruct (C6_storage_failures_degrade Demo.dump Demo.size Demo.iso Demo.parser Demo.cfg0
                Demo.env0 Demo.hello (Directory Demo.unlistable))
      as (_ & _ & H & _).
    apply (H Demo.unlistable); [reflexivity|]. left. reflexivity.
Defined.

Lemma C7_witness :
  get_document Demo.load Demo.dir_garbage (py "bad")
  = Response 500 (JDict [(py "error", jstr "Expecting value")])
  /\ get_document Demo.load Demo.dir_garbage (py "missing")
     = Response 404 (JDict [(py "error", jstr "Document not found")])
  /\ get_document Demo.load Demo.dir_double_suffix (py "a.json")
     = Response 200 (JDict []).
Proof.
  split; [|split].
  - destruct (C7_get_document Demo.load Demo.dir_garbage (py "bad")) as (_ & _ & H).
    apply H; [reflexivity|]. right. exists (Demo.Garbage (py "Expecting value")).
    split; reflexivity.
  - destruct (C7_get_document Demo.load Demo.dir_garbage (py "missing")) as (H & _).
    apply H. reflexivity.
  - destruct (C7_get_document Demo.load Demo.dir_double_suffix (py "a.json"))
      as (_ & H & _).
    apply (H (Demo.Text (JDict []))); reflexivity.
Defined.

Lemma C8_witness :
  handle Demo.dump Demo.load Demo.size Demo.iso Demo.parser
    (with_key Demo.cfg0 (Some (py "sk-first"))) Demo.env0 (POST_process Demo.hello)
    Demo.empty_dir
  = handle Demo.dump Demo.load Demo.size Demo.iso Demo.parser
      (with_key Demo.cfg0 (Some (py "  another key  "))) Demo.env0
      (POST_process Demo.hello) Demo.empty_dir
  /\ _embeddings_key_configured (with_key Demo.cfg0 (Some (py "sk-first"))) = true.
Proof.
  apply (C8_key_not_exposed Demo.dump Demo.load Demo.size Demo.iso Demo.parser Demo.cfg0
           (Some (py "sk-first")) (Some (py "  another key  ")) Demo.env0
           (POST_process Demo.hello) Demo.empty_dir).
  reflexivity.
Defined.

Lemma C1_witness :
  exists d doc_id,
    Demo.hello_body = JDict d
    /\ dict_get d (py "document_id") = Some (JStr doc_id)
    /\ get_document Demo.load Demo.hello_storage doc_id
       = Response 200 (JDict (dict_remove d (py "storage"))).
Proof.
  apply (C1_round_trip_without_storage Demo.dump Demo.load Demo.size Demo.iso Demo.parser
           Demo.cfg0 Demo.env0 Demo.hello Demo.empty_dir).
  - intros v. reflexivity.
  - vm_compute. reflexivity.
  - vm_compute. reflexivity.
Defined.

(** Read back, the document lacks the [storage] member of the answer. *)
Lemma C1_counterexample :
  process_document Demo.dump Demo.size Demo.iso Demo.parser Demo.cfg0 Demo.env0
    Demo.hello Demo.empty_dir
  = (Response 200 Demo.hello_body, Demo.hello_storage)
  /\ json_path Demo.hello_body ["storage"; "saved"]%string = Some (JBool true)
  /\ json_path Demo.hello_body ["document_id"]%string
     = Some (JStr (uuid4 Demo.env0))
  /\ exists body',
       get_document Demo.load Demo.hello_storage (uuid4 Demo.env0)
       = Response 200 body'
       /\ json_path body' ["storage"]%string = None
       /\ deep_equal body' Demo.hello_body = false.
Proof.
  split; [vm_compute; reflexivity|].
  split; [vm_compute; reflexivity|].
  split; [vm_compute; reflexivity|].
  eexists. split; [vm_compute; reflexivity|].
  split; vm_compute; reflexivity.
Qed.

(** ** Examples *)

Example split_example : split (py "  hello   world ") = [py "hello"; py "world"].
Proof. reflexivity. Qed.

Example strip_example : strip (py "  a b  ") = py "a b".
Proof. reflexivity. Qed.

Example replace_example :
  replace (py "2024-01-01T00:00:00+00:00") (py "+00:00") (py "Z")
  = py "2024-01-01T00:00:00Z".
Proof. reflexivity. Qed.

Example str_of_int_example :
  str_of_int 10 = py "10" /\ str_of_int (-3) = py "-3" /\ str_of_int 0 = py "0".
Proof. repeat split; reflexivity. Qed.

(** "h", e-acute, an invalid byte, the euro sign, a truncated sequence, "A". *)
Example decode_ignore_example :
  Utf8.decode_ignore [x68; xc3; xa9; xff; xe2; x82; xac; xe2; x82; x41]
  = [104; 233; 8364; 65]%N.
Proof. reflexivity. Qed.

(** A lone surrogate cannot be encoded. *)
Example encode_surrogate : Utf8.encode [55296%N] = None.
Proof. reflexivity. Qed.

Example uuid_name_listed :
  replace (uuid4 Demo.env0 ++ py ".json") (py ".json") [] = uuid4 Demo.env0.
Proof. reflexivity. Qed.

(** * Further properties of the views *)

Arguments py : simpl never.

(** ** Input resolution and validation *)

Section Resolution.

Context {filedata : Type}.
Context (json_dump : json -> filedata).
Context (data_size : filedata -> Z).
Context (isoformat : Q -> pystr).
Context (form_too_large : form -> bool).

Implicit Types (cfg : Config) (e : env (filedata := filedata)) (r : request).
Implicit Types (st : storage (filedata := filedata)).

(** What a 200 answer of [process_document] is made of. *)
Lemma process_200_inv cfg e r st body st' :
  process_document json_dump data_size isoformat form_too_large cfg e r st = (Response 200 body, st') ->
  exists fname s bs,
    resolve_input form_too_large r = inr (JStr s, fname)
    /\ Utf8.encode s = Some bs
    /\ ~ Spec.over_limit (length bs) (MAX_DOCUMENT_SIZE_MB cfg)
    /\ body = JDict (build_result cfg (uuid4 e) (timestamp_z isoformat (utcnow e))
                       fname s bs
                     ++ [(py "storage",
                          fst (persist json_dump data_size cfg e
                                 (build_result cfg (uuid4 e)
                                    (timestamp_z isoformat (utcnow e)) fname s bs) st))])
    /\ st' = snd (persist json_dump data_size cfg e
                    (build_result cfg (uuid4 e)
                       (timestamp_z isoformat (utcnow e)) fname s bs) st).
Proof.
  intros Hproc.
  destruct (prepare isoformat form_too_large cfg e r) as [o|result] eqn:Hp.
  { rewrite (process_early json_dump data_size isoformat form_too_large cfg e r st o Hp) in Hproc.
    injection Hproc as -> _.
    apply prepare_early_status in Hp. simpl in Hp. congruence. }
  destruct (process_ready json_dump data_size isoformat form_too_large cfg e r st result Hp) as [Heq _].
  rewrite Heq in Hproc. injection Hproc as <- <-.
  unfold prepare in Hp.
  destruct (resolve_input form_too_large r) as [o|[c f]]; [discriminate|]. cbn [bind fst snd] in Hp.
  destruct c; try discriminate. cbn [encode_content] in Hp.
  destruct (Utf8.encode s) as [bs|] eqn:He; [|discriminate]. cbn [bind fst snd] in Hp.
  unfold check_size in Hp.
  destruct (exceeds (content_size_mb (length bs)) (MAX_DOCUMENT_SIZE_MB cfg)) eqn:Hx;
    [discriminate|].
  cbn [bind] in Hp. injection Hp as <-.
  exists f, s, bs.
  split; [reflexivity|]. split; [exact He|]. split; [|split; reflexivity].
  intros Hover. apply exceeds_over_limit in Hover. congruence.
Qed.


(** X2. A JSON body that parses to a truthy value other than an object (a
    list, a string, a number, [true]) makes [data.get] raise: the view ends
    with an [AttributeError] and storage is not touched. *)
Theorem json_body_not_an_object_raises cfg e st (v : json) :
  truthy v = true ->
  (forall d, v <> JDict d) ->
  process_document json_dump data_size isoformat form_too_large cfg e (JsonRequest (Some v)) st
  = (Unhandled AttributeError, st).
Proof.
  intros Hv Hd. apply process_early. unfold prepare, resolve_input.
  cbn [is_json get_json_silent]. rewrite Hv.
  destruct v; try reflexivity. exfalso. apply (Hd d). reflexivity.
Qed.

(** X3. A JSON object whose [content] is not a string makes
    [content.encode] raise [AttributeError]; storage is not touched. *)
Theorem json_content_not_a_string_raises cfg e st (d : pydict) (c : json) :
  dict_get d (py "content") = Some c ->
  (forall s, c <> JStr s) ->
  process_document json_dump data_size isoformat form_too_large cfg e (JsonRequest (Some (JDict d))) st
  = (Unhandled AttributeError, st).
Proof.
  intros Hc Hs. apply process_early. unfold prepare, resolve_input.
  cbn [is_json get_json_silent].
  assert (Ht : truthy (JDict d) = true) by (destruct d; [discriminate|reflexivity]).
  rewrite Ht, Hc. cbn [default bind fst].
  destruct c; try reflexivity. exfalso. apply (Hs s). reflexivity.
Qed.

(** X4. A JSON [content] string that holds a lone surrogate cannot be
    encoded: the view ends with a [UnicodeEncodeError]; storage is not
    touched. *)
Theorem json_content_surrogate_raises cfg e st (d : pydict) (s : pystr) :
  dict_get d (py "content") = Some (JStr s) ->
  Utf8.encode s = None ->
  process_document json_dump data_size isoformat form_too_large cfg e (JsonRequest (Some (JDict d))) st
  = (Unhandled UnicodeEncodeError, st).
Proof.
  intros Hc He. apply process_early. unfold prepare, resolve_input.
  cbn [is_json get_json_silent].
  assert (Ht : truthy (JDict d) = true) by (destruct d; [discriminate|reflexivity]).
  rewrite Ht, Hc. cbn -[py Utf8.encode]. rewrite He. reflexivity.
Qed.

(** X5. A file part under the name [file] whose filename is empty is
    falsy, and (the parser accepting the form) the upload is rejected like an
    absent one. *)
Theorem upload_with_empty_filename_rejected cfg e r st files (f : FileStorage) :
  is_json r = false ->
  request_files form_too_large r = Some files ->
  files_get files (py "file") = Some f ->
  filename f = [] ->
  process_document json_dump data_size isoformat form_too_large cfg e r st
  = (Response 400 (JDict [(py "error", jstr "No file provided")]), st).
Proof.
  intros Hj Hfiles Hg Hf. apply process_early. unfold prepare, resolve_input.
  rewrite Hj, Hfiles, Hg. unfold file_truthy. rewrite Hf.
  destruct files; [discriminate|]. reflexivity.
Qed.

(** How a request that is not JSON resolves: the parser's exception, a 400,
    or a string that can be encoded. *)
Lemma resolve_input_non_json r :
  is_json r = false ->
  (request_files form_too_large r = None
   /\ resolve_input form_too_large r = inl (Unhandled RequestEntityTooLarge))
  \/ resolve_input form_too_large r
     = inl (Response 400 (JDict [(py "error", jstr "No file provided")]))
  \/ exists s fname bs,
       resolve_input form_too_large r = inr (JStr s, JStr fname)
       /\ Utf8.encode s = Some bs.
Proof.
  intros Hj. unfold resolve_input. rewrite Hj.
  destruct (request_files form_too_large r) as [files|]; [|left; split; reflexivity].
  right.
  destruct (negb (length files =? 0)%nat).
  - destruct (files_get files (py "file")) as [f|]; [|left; reflexivity].
    destruct (file_truthy f); [|left; reflexivity].
    right. destruct (decode_ignore_encodable (stream f)) as [bs Hbs].
    eexists _, _, bs. split; [reflexivity|exact Hbs].
  - right. destruct (Utf8.decode_ignore (request_data r)) as [|c s] eqn:Hd.
    + eexists _, _, _. split; reflexivity.
    + destruct (decode_ignore_encodable (request_data r)) as [bs Hbs].
      rewrite Hd in Hbs. eexists _, _, bs. split; [reflexivity|exact Hbs].
Qed.

(** X6. A request that is not JSON is always answered 200, 400 or 413 and
    never 500: the only exception that can escape is the form parser's
    [RequestEntityTooLarge], whose status is 413, and it escapes exactly when
    the parser rejects the form. *)
Theorem non_json_request_never_500 cfg e r st :
  is_json r = false ->
  (status_of (fst (process_document json_dump data_size isoformat form_too_large
                     cfg e r st)) = 200
   \/ status_of (fst (process_document json_dump data_size isoformat form_too_large
                        cfg e r st)) = 400
   \/ status_of (fst (process_document json_dump data_size isoformat form_too_large
                        cfg e r st)) = 413)
  /\ (forall x,
        fst (process_document json_dump data_size isoformat form_too_large cfg e r st)
        = Unhandled x <->
        x = RequestEntityTooLarge /\ request_files form_too_large r = None).
Proof.
  intros Hj.
  destruct (resolve_input_non_json r Hj)
    as [[Hnone Hr]|[H400|(s & fname & bs & Hr & He)]].
  - assert (Hp : prepare isoformat form_too_large cfg e r
                 = inl (Unhandled RequestEntityTooLarge))
      by (unfold prepare; rewrite Hr; reflexivity).
    rewrite (process_early json_dump data_size isoformat form_too_large cfg e r st _ Hp).
    split; [right; right; reflexivity|].
    intros x. cbn [fst]. split.
    + intros [= <-]. split; [reflexivity|exact Hnone].
    + intros [-> _]. reflexivity.
  - assert (Hsome : request_files form_too_large r <> None).
    { intros Hn. unfold resolve_input in H400. rewrite Hj, Hn in H400. discriminate. }
    assert (Hp : prepare isoformat form_too_large cfg e r
                 = inl (Response 400 (JDict [(py "error", jstr "No file provided")])))
      by (unfold prepare; rewrite H400; reflexivity).
    rewrite (process_early json_dump data_size isoformat form_too_large cfg e r st _ Hp).
    split; [right; left; reflexivity|].
    intros x. cbn [fst]. split; [discriminate|]. intros [_ Hn]. contradiction.
  - assert (Hsome : request_files form_too_large r <> None).
    { intros Hn. unfold resolve_input in Hr. rewrite Hj, Hn in Hr. discriminate. }
    pose proof (prepare_resolved isoformat form_too_large cfg e r s (JStr fname) bs Hr He)
      as Hp.
    unfold check_size in Hp.
    destruct (exceeds (content_size_mb (length bs)) (MAX_DOCUMENT_SIZE_MB cfg)).
    + cbn [bind] in Hp.
      rewrite (process_early json_dump data_size isoformat form_too_large cfg e r st _ Hp).
      split; [right; right; reflexivity|].
      intros x. cbn [fst]. split; [discriminate|]. intros [_ Hn]. contradiction.
    + cbn [bind] in Hp.
      destruct (process_ready json_dump data_size isoformat form_too_large cfg e r st _ Hp)
        as [-> _].
      split; [left; reflexivity|].
      intros x. cbn [fst]. split; [discriminate|]. intros [_ Hn]. contradiction.
Qed.

End Resolution.

(** ** Statistics *)

Lemma utf8_width_bounds (c : N) : (1 <= Spec.utf8_width c <= 4)%nat.
Proof.
  unfold Spec.utf8_width.
  destruct (c <? 128)%N, (c <? 2048)%N, (c <? 65536)%N; lia.
Qed.

Lemma utf8_length_bounds (s : pystr) :
  (length s <= Spec.utf8_length s <= 4 * length s)%nat.
Proof.
  induction s as [|c s IH]; simpl; [lia|].
  pose proof (utf8_width_bounds c). lia.
Qed.

Lemma token_starts_le (s : pystr) (b : bool) : (Spec.token_starts b s <= length s)%nat.
Proof.
  revert b. induction s as [|c s IH]; intros b; simpl; [lia|].
  specialize (IH (is_space c)).
  destruct (b && negb (is_space c)); lia.
Qed.

(** The sequence [decode_one] accepts is as long as the encoding of its code
    point, and lies within the input. *)
Lemma decode_one_width (bs : list N) (c : N) (n : nat) :
  Utf8.decode_one bs = Some (c, n) ->
  Spec.utf8_width c = n /\ (1 <= n <= length bs)%nat.
Proof.
  unfold Utf8.decode_one, Spec.utf8_width.
  destruct bs as [|b0 t]; [discriminate|].
  destruct (b0 <? 128)%N eqn:E0.
  { intros [= <- <-]. rewrite E0. simpl. lia. }
  destruct ((194 <=? b0) && (b0 <=? 223))%N eqn:E1.
  { destruct t as [|b1 t]; [discriminate|].
    destruct (Utf8.is_cont b1) eqn:C1; [|discriminate].
    intros [= <- <-]. unfold Utf8.is_cont in C1.
    apply andb_true_iff in E1 as [?%N.leb_le ?%N.leb_le].
    apply andb_true_iff in C1 as [?%N.leb_le ?%N.leb_le].
    btest; simpl; lia. }
  destruct ((224 <=? b0) && (b0 <=? 239))%N eqn:E2.
  { destruct t as [|b1 [|b2 t]]; try discriminate.
    match goal with |- context [if ?x then _ else _] => destruct x eqn:C end;
      [|discriminate].
    intros [= <- <-].
    apply andb_true_iff in C as [C _]. apply andb_true_iff in C as [C Hge].
    apply andb_true_iff in C as [C1 C2]. unfold Utf8.is_cont in C1, C2.
    apply N.leb_le in Hge.
    apply andb_true_iff in E2 as [?%N.leb_le ?%N.leb_le].
    apply andb_true_iff in C1 as [?%N.leb_le ?%N.leb_le].
    apply andb_true_iff in C2 as [?%N.leb_le ?%N.leb_le].
    btest; simpl; lia. }
  destruct ((240 <=? b0) && (b0 <=? 244))%N eqn:E3; [|discriminate].
  destruct t as [|b1 [|b2 [|b3 t]]]; try discriminate.
  match goal with |- context [if ?x then _ else _] => destruct x eqn:C end;
    [|discriminate].
  intros [= <- <-].
  apply andb_true_iff in C as [C _]. apply andb_true_iff in C as [_ Hge].
  apply N.leb_le in Hge.
  btest; simpl; lia.
Qed.

Lemma decode_from_length (bs : list N) (skip : nat) :
  (Spec.utf8_length (Utf8.decode_from skip bs) <= length bs - skip)%nat.
Proof.
  revert skip. induction bs as [|b bs IH]; intros skip; [simpl; lia|].
  destruct skip as [|k].
  - rewrite decode_from_0_cons.
    destruct (Utf8.decode_one (b :: bs)) as [[c n]|] eqn:Hd.
    + apply decode_one_width in Hd as [Hw Hn]. specialize (IH (n - 1)%nat).
      simpl in *. lia.
    + specialize (IH 0%nat). simpl in *. lia.
  - specialize (IH k). simpl. lia.
Qed.

(** Decoding leniently and encoding again never yields more bytes than
    there were. *)
Lemma decode_ignore_length (bs out : list byte) :
  Utf8.encode (Utf8.decode_ignore bs) = Some out -> (length out <= length bs)%nat.
Proof.
  intros H. apply encode_length in H. rewrite H. unfold Utf8.decode_ignore.
  pose proof (decode_from_length (map Byte.to_N bs) 0) as Hl.
  rewrite length_map in Hl. lia.
Qed.

Section Statistics.

Context {filedata : Type}.
Context (json_dump : json -> filedata).
Context (data_size : filedata -> Z).
Context (isoformat : Q -> pystr).
Context (form_too_large : form -> bool).

Implicit Types (cfg : Config) (e : env (filedata := filedata)) (r : request).
Implicit Types (st : storage (filedata := filedata)).

(** X7. When the parser accepts the form, an upload under [file] with a
    filename and at most [MAX_DOCUMENT_SIZE_MB] megabytes is never rejected as
    too large, whatever bytes it holds: the answer is 200, the filename is the
    one of the upload, and [size_bytes] is at most the number of bytes
    uploaded (lenient decoding only drops bytes). *)
Theorem upload_within_limit_accepted cfg e r st files (f : FileStorage) :
  is_json r = false ->
  request_files form_too_large r = Some files ->
  files_get files (py "file") = Some f ->
  filename f <> [] ->
  Z.of_nat (length (stream f)) <= MAX_DOCUMENT_SIZE_MB cfg * (1024 * 1024) ->
  exists body st' size,
    process_document json_dump data_size isoformat form_too_large cfg e r st
    = (Response 200 body, st')
    /\ json_path body ["filename"]%string = Some (JStr (filename f))
    /\ json_path body ["statistics"; "size_bytes"]%string = Some (JInt (Z.of_nat size))
    /\ (size <= length (stream f))%nat.
Proof.
  intros Hj Hfiles Hg Hf Hsize.
  destruct (decode_ignore_encodable (stream f)) as [bs Hbs].
  pose proof (decode_ignore_length _ _ Hbs) as Hlen.
  assert (Hr : resolve_input form_too_large r
               = inr (JStr (Utf8.decode_ignore (stream f)), JStr (filename f))).
  { unfold resolve_input. rewrite Hj, Hfiles, Hg. unfold file_truthy.
    destruct files; [discriminate|].
    destruct (filename f); [congruence|]. reflexivity. }
  pose proof (prepare_resolved isoformat form_too_large cfg e r _ _ bs Hr Hbs) as Hp.
  rewrite check_size_within in Hp by (unfold Spec.over_limit; lia).
  cbn [bind] in Hp.
  destruct (process_ready json_dump data_size isoformat form_too_large cfg e r st _ Hp)
    as [-> _].
  eexists _, _, (length bs).
  split; [reflexivity|]. repeat split. exact Hlen.
Qed.

(** X8. A body sent under a content type that is neither JSON nor a form,
    and that is the UTF-8 encoding of a non-empty string [s] within the
    limit, is measured as [s]: [character_count] is the length of [s] and
    [size_bytes] the number of bytes sent. *)
Theorem raw_utf8_body_statistics cfg e st (data : list byte) (s : pystr) :
  Utf8.encode s = Some data ->
  s <> [] ->
  ~ Spec.over_limit (length data) (MAX_DOCUMENT_SIZE_MB cfg) ->
  exists body st',
    process_document json_dump data_size isoformat form_too_large cfg e
      (DataRequest data) st = (Response 200 body, st')
    /\ json_path body ["statistics"; "character_count"]%string
       = Some (JInt (Z.of_nat (length s)))
    /\ json_path body ["statistics"; "size_bytes"]%string
       = Some (JInt (Z.of_nat (length data))).
Proof.
  intros He Hne Hin.
  assert (Hr : resolve_input form_too_large (DataRequest data)
               = inr (JStr s, jstr "document.txt")).
  { unfold resolve_input. cbn [is_json request_files length Nat.eqb negb request_data].
    rewrite (decode_encode s _ He). destruct s; [congruence|reflexivity]. }
  pose proof (prepare_resolved isoformat form_too_large cfg e _ _ _ _ Hr He) as Hp.
  rewrite (check_size_within cfg _ Hin) in Hp. cbn [bind] in Hp.
  destruct (process_ready json_dump data_size isoformat form_too_large cfg e _ st _ Hp)
    as [-> _].
  eexists _, _. split; [reflexivity|]. split; reflexivity.
Qed.

(** X9. In every 200 answer the statistics are consistent: words are at
    most characters, characters at most bytes, bytes at most four per
    character, and the bytes are within the configured limit. *)
Theorem statistics_consistent cfg e r st body st' :
  process_document json_dump data_size isoformat form_too_large cfg e r st = (Response 200 body, st') ->
  exists chars words bytes : nat,
    json_path body ["statistics"; "character_count"]%string
    = Some (JInt (Z.of_nat chars))
    /\ json_path body ["statistics"; "word_count"]%string
       = Some (JInt (Z.of_nat words))
    /\ json_path body ["statistics"; "size_bytes"]%string
       = Some (JInt (Z.of_nat bytes))
    /\ (words <= chars <= bytes)%nat /\ (bytes <= 4 * chars)%nat
    /\ Z.of_nat bytes <= MAX_DOCUMENT_SIZE_MB cfg * (1024 * 1024).
Proof.
  intros Hproc.
  destruct (process_200_inv json_dump data_size isoformat form_too_large cfg e r st body st' Hproc)
    as (fname & s & bs & _ & He & Hin & -> & _).
  exists (length s), (length (split s)), (length bs).
  split; [reflexivity|]. split; [reflexivity|]. split; [reflexivity|].
  rewrite split_length, (encode_length s bs He).
  pose proof (utf8_length_bounds s). pose proof (token_starts_le s true).
  unfold Spec.whitespace_tokens. rewrite (encode_length s bs He) in Hin.
  unfold Spec.over_limit in Hin. lia.
Qed.

(** X10. The analysis does not depend on the document: every 200 answer
    carries the same three entities, four key phrases and sentiment. *)
Theorem analysis_is_constant cfg e r st body st' :
  process_document json_dump data_size isoformat form_too_large cfg e r st = (Response 200 body, st') ->
  json_path body ["analysis"]%string
  = Some (JDict [(py "entities", mock_entities);
                 (py "key_phrases", mock_key_phrases);
                 (py "sentiment", mock_sentiment)]).
Proof.
  intros Hproc.
  destruct (process_200_inv json_dump data_size isoformat form_too_large cfg e r st body st' Hproc)
    as (fname & s & bs & _ & _ & _ & -> & _).
  reflexivity.
Qed.

End Statistics.

Lemma split_from_at_whitespace (a b cur : pystr) (c : N) :
  is_space c = true ->
  split_from cur (a ++ c :: b) = split_from cur a ++ split_from [] b.
Proof.
  intros Hc. revert cur. induction a as [|x a IH]; intros cur; simpl.
  - rewrite Hc. destruct cur; reflexivity.
  - destruct (is_space x); [|apply IH].
    destruct cur; rewrite IH; reflexivity.
Qed.

(** X11. Words add up across whitespace: splitting a text at a whitespace
    character gives the words of both parts. *)
Theorem split_at_whitespace (a b : pystr) (c : N) :
  is_space c = true ->
  split (a ++ c :: b) = split a ++ split b.
Proof. intros Hc. apply split_from_at_whitespace. exact Hc. Qed.

(** ** Storage *)

Section Storage.

Context {filedata : Type}.
Context (json_dump : json -> filedata).
Context (json_load : filedata -> io json).
Context (data_size : filedata -> Z).
Context (isoformat : Q -> pystr).
Context (form_too_large : form -> bool).

Implicit Types (cfg : Config) (e : env (filedata := filedata)) (r : request).
Implicit Types (st : storage (filedata := filedata)).
Implicit Types (d : directory (filedata := filedata)).

(** X12. [_ensure_storage_directory] is idempotent: a second call answers
    as the first and changes nothing more; it answers [True] exactly when
    the directory exists afterwards, and an existing directory is left as it
    is. *)
Theorem ensure_storage_directory_idempotent st :
  _ensure_storage_directory (snd (_ensure_storage_directory st))
  = _ensure_storage_directory st
  /\ (fst (_ensure_storage_directory st) = true
      <-> exists d, snd (_ensure_storage_directory st) = Directory d)
  /\ (forall d, st = Directory d -> _ensure_storage_directory st = (true, st)).
Proof.
  destruct st as [[err|]|d]; simpl.
  - split; [reflexivity|]. split; [|intros; discriminate].
    split; [discriminate|]. intros [d H]. discriminate.
  - split; [reflexivity|]. split; [|intros; discriminate].
    split; [eauto|reflexivity].
  - split; [reflexivity|]. split; [|intros d' [= <-]; reflexivity].
    split; [eauto|reflexivity].
Qed.

(** What [get_document] reads of the storage is the entry under the name. *)
Lemma get_document_entry st st' (doc_id : pystr) :
  storage_entries st !! (doc_id ++ py ".json")
  = storage_entries st' !! (doc_id ++ py ".json") ->
  get_document json_load st doc_id = get_document json_load st' doc_id.
Proof.
  unfold get_document. generalize (doc_id ++ py ".json"). intros name H.
  unfold os_path_exists, read_file, os_stat.
  destruct st as [m|d], st' as [m'|d']; cbn [storage_entries] in H;
    rewrite ?lookup_empty in H; rewrite <- ?H; try rewrite H; reflexivity.
Qed.

(** [persist] changes at most the entry of the new document. *)
Lemma persist_frame cfg e (result : pydict) st (name : pystr) :
  name <> uuid4 e ++ py ".json" ->
  storage_entries (snd (persist json_dump data_size cfg e result st)) !! name
  = storage_entries st !! name.
Proof.
  intros Hne. unfold persist, write_json.
  destruct st as [[err|]|d]; simpl; try reflexivity;
    destruct (write_fault e) as [[msg [partial|]]|]; simpl;
    rewrite ?lookup_insert_ne by congruence; rewrite ?lookup_empty; reflexivity.
Qed.

(** X13. Processing a document never changes what [get_document] answers
    for another id, whether the new document was saved, failed to be saved
    or was rejected. *)
Theorem process_preserves_other_documents cfg e r st (doc_id : pystr) :
  doc_id <> uuid4 e ->
  get_document json_load
    (snd (process_document json_dump data_size isoformat form_too_large cfg e r st)) doc_id
  = get_document json_load st doc_id.
Proof.
  intros Hne. apply get_document_entry.
  unfold process_document.
  destruct (prepare isoformat form_too_large cfg e r) as [o|result]; [reflexivity|].
  pose proof (persist_frame cfg e result st (doc_id ++ py ".json")) as Hf.
  destruct (persist json_dump data_size cfg e result st) as [o st']. simpl in *.
  apply Hf. intros Heq. apply app_inv_tail in Heq. contradiction.
Qed.

(** X14. In a 200 answer [storage.saved] is true exactly when the directory
    was available and the write did not fail; then [storage.path] is the
    path of the new file and the file exists. *)
Theorem saved_iff_written cfg e r st body st' :
  process_document json_dump data_size isoformat form_too_large cfg e r st = (Response 200 body, st') ->
  (json_path body ["storage"; "saved"]%string = Some (JBool true)
   <-> fst (_ensure_storage_directory st) = true /\ write_fault e = None)
  /\ (json_path body ["storage"; "saved"]%string = Some (JBool true) ->
      json_path body ["storage"; "path"]%string
      = Some (JStr (os_path_join (STORAGE_PATH cfg) (uuid4 e ++ py ".json")))
      /\ os_path_exists st' (uuid4 e ++ py ".json") = true).
Proof.
  intros Hproc.
  destruct (process_200_inv json_dump data_size isoformat form_too_large cfg e r st body st' Hproc)
    as (fname & s & bs & _ & _ & _ & -> & ->).
  set (result := build_result cfg (uuid4 e) (timestamp_z isoformat (utcnow e)) fname s bs).
  assert (Hfresh : dict_get result (py "storage") = None) by reflexivity.
  cbn [json_path]. rewrite (dict_get_app_fresh _ _ _ Hfresh).
  unfold persist, write_json.
  destruct st as [[err|]|d]; simpl;
    destruct (write_fault e) as [[msg [partial|]]|]; simpl;
    (split; [split; [try discriminate; auto | intros [? ?]; try discriminate; auto]
            | try discriminate]).
  all: intros _; split; [reflexivity|].
  all: unfold os_stat; simpl; rewrite lookup_insert_eq; reflexivity.
Qed.

(** The ids [list_files] reports, in order: one per name that ends in
    [.json]. *)
Lemma list_files_ids d (names : list pystr) (files : list json) :
  list_files isoformat d names = Ok files ->
  map (fun f => json_path f ["document_id"]%string) files
  = map (fun n => Some (JStr (replace n (py ".json") [])))
        (List.filter (fun n => endswith n (py ".json")) names).
Proof.
  revert files. induction names as [|n names IH]; intros files; simpl.
  - intros [= <-]. reflexivity.
  - destruct (endswith n (py ".json")); [|apply IH].
    destruct (os_stat d n) as [stat|msg]; [|discriminate].
    destruct (list_files isoformat d names) as [rest|msg]; [|discriminate].
    intros [= <-]. simpl. f_equal. apply IH. reflexivity.
Qed.

Lemma list_documents_ok_inv d body :
  fst (list_documents isoformat (Directory d)) = Response 200 body ->
  json_path body ["error"]%string = None ->
  exists files,
    body = JDict [(py "documents", JList files);
                  (py "count", JInt (Z.of_nat (length files)))]
    /\ list_files isoformat d (map fst (map_to_list (entries d))) = Ok files.
Proof.
  unfold list_documents, os_listdir. cbn [_ensure_storage_directory].
  destruct (listdir_error d) as [msg|].
  { cbn [fst]. intros [= <-]. discriminate. }
  destruct (list_files isoformat d (map fst (map_to_list (entries d))))
    as [files|msg] eqn:Hl; cbn [fst].
  - intros [= <-] _. exists files. split; reflexivity.
  - intros [= <-]. discriminate.
Qed.

(** X15. When the listing succeeds it reports exactly the entries whose
    name ends in [.json], each under its name with all [.json] removed, and
    [count] is their number; other files are passed over. *)
Theorem list_documents_lists_json_entries d body :
  fst (list_documents isoformat (Directory d)) = Response 200 body ->
  json_path body ["error"]%string = None ->
  exists files,
    json_path body ["documents"]%string = Some (JList files)
    /\ json_path body ["count"]%string = Some (JInt (Z.of_nat (length files)))
    /\ map (fun f => json_path f ["document_id"]%string) files
       = map (fun n => Some (JStr (replace n (py ".json") [])))
           (List.filter (fun n => endswith n (py ".json"))
              (map fst (map_to_list (entries d)))).
Proof.
  intros Hl Herr. destruct (list_documents_ok_inv d body Hl Herr) as (files & -> & Hf).
  exists files. split; [reflexivity|]. split; [reflexivity|].
  apply (list_files_ids d _ _ Hf).
Qed.

(** X16. [list_documents] leaves an existing directory as it is; its only
    effect is the one of [_ensure_storage_directory], which creates a
    missing directory, and then the listing is empty. *)
Theorem list_documents_effect st :
  snd (list_documents isoformat st) = snd (_ensure_storage_directory st)
  /\ (forall d, st = Directory d -> snd (list_documents isoformat st) = st)
  /\ (st = NoDirectory None ->
      fst (list_documents isoformat st)
      = Response 200 (JDict [(py "documents", JList []); (py "count", JInt 0)])).
Proof.
  assert (H : snd (list_documents isoformat st) = snd (_ensure_storage_directory st)).
  { unfold list_documents.
    destruct (_ensure_storage_directory st) as [[|] [err|d]]; try reflexivity.
    destruct (os_listdir d) as [names|msg]; [|reflexivity].
    destruct (list_files isoformat d names); reflexivity. }
  split; [exact H|]. split.
  - intros d ->. rewrite H. reflexivity.
  - intros ->. unfold list_documents, os_listdir. simpl.
    rewrite map_to_list_empty. reflexivity.
Qed.

Lemma startswith_app (p t : pystr) : startswith (p ++ t) p = true.
Proof.
  induction p as [|c p IH]; simpl; [destruct t; reflexivity|].
  rewrite N.eqb_refl. exact IH.
Qed.

Lemma endswith_app (s p : pystr) : endswith (s ++ p) p = true.
Proof. unfold endswith. rewrite rev_app_distr. apply startswith_app. Qed.

(** X17. A document that was saved is listed: when the listing of the
    directory after [process_document] succeeds, it holds an entry whose
    [document_id] is the id of the answer. The id is assumed free of dots, as
    a uuid is. *)
Theorem processed_document_is_listed cfg e r st body st' lbody :
  process_document json_dump data_size isoformat form_too_large cfg e r st = (Response 200 body, st') ->
  json_path body ["storage"; "saved"]%string = Some (JBool true) ->
  ~ In 46%N (uuid4 e) ->
  fst (list_documents isoformat st') = Response 200 lbody ->
  json_path lbody ["error"]%string = None ->
  exists files f,
    json_path lbody ["documents"]%string = Some (JList files)
    /\ In f files
    /\ json_path f ["document_id"]%string = Some (JStr (uuid4 e)).
Proof.
  intros Hproc Hsaved Hdot Hlist Herr.
  destruct (process_200_inv json_dump data_size isoformat form_too_large cfg e r st body st' Hproc)
    as (fname & s & bs & _ & _ & _ & -> & ->).
  set (result := build_result cfg (uuid4 e) (timestamp_z isoformat (utcnow e)) fname s bs)
    in *.
  assert (Hfresh : dict_get result (py "storage") = None) by reflexivity.
  cbn [json_path] in Hsaved. rewrite (dict_get_app_fresh _ _ _ Hfresh) in Hsaved.
  assert (Hst : exists d,
            snd (persist json_dump data_size cfg e result st) = Directory d
            /\ is_Some (entries d !! (uuid4 e ++ py ".json"))).
  { unfold persist, write_json in *.
    destruct st as [[err|]|d]; simpl in *;
      destruct (write_fault e) as [[msg [partial|]]|]; simpl in *;
      try discriminate;
      (eexists; split; [reflexivity|]; simpl; rewrite lookup_insert_eq; eauto). }
  destruct Hst as (d & Hd & [n Hn]). rewrite Hd in Hlist.
  destruct (list_documents_ok_inv d lbody Hlist Herr) as (files & -> & Hfiles).
  pose proof (list_files_ids d _ _ Hfiles) as Hids.
  exists files.
  assert (Hin : In (Some (JStr (uuid4 e)))
                  (map (fun f => json_path f ["document_id"]%string) files)).
  { rewrite Hids. apply in_map_iff. exists (uuid4 e ++ py ".json"). split.
    - rewrite (replace_json_suffix_no_dot _ Hdot). reflexivity.
    - apply filter_In. split; [|apply endswith_app].
      apply in_map_iff. exists (uuid4 e ++ py ".json", n). split; [reflexivity|].
      apply list_elem_of_In, elem_of_map_to_list. exact Hn. }
  apply in_map_iff in Hin as (f & Hf & Hinf).
  exists f. split; [reflexivity|]. split; assumption.
Qed.

(** X18. An id reported by the listing for a name whose stem holds no dot
    leads back to the file: the id is the stem, and [get_document] finds the
    file under it. *)
Theorem listed_id_is_retrievable d (stem : pystr) (n : node) (stat : stat_result) :
  entries d !! (stem ++ py ".json") = Some n ->
  node_stat n = Ok stat ->
  ~ In 46%N stem ->
  endswith (stem ++ py ".json") (py ".json") = true
  /\ replace (stem ++ py ".json") (py ".json") [] = stem
  /\ status_of (get_document json_load (Directory d) stem) <> 404.
Proof.
  intros Hn Hs Hdot. split; [apply endswith_app|].
  split; [apply replace_json_suffix_no_dot; exact Hdot|].
  unfold get_document, os_path_exists, os_stat, read_file. rewrite Hn, Hs. simpl.
  destruct (node_read n) as [data|msg]; [|discriminate].
  destruct (json_load data); discriminate.
Qed.

Lemma replace_offset_no_plus (p : pystr) :
  ~ In 43%N p ->
  replace (p ++ py "+00:00") (py "+00:00") (py "Z") = p ++ py "Z".
Proof.
  unfold replace. change (py "+00:00") with [43; 48; 48; 58; 48; 48]%N.
  induction p as [|c p IH]; intros Hplus; [reflexivity|].
  assert (Hc : (43 =? c)%N = false).
  { apply N.eqb_neq. intros <-. apply Hplus. left. reflexivity. }
  cbn [app replace_from startswith]. rewrite Hc. cbn [andb]. f_equal.
  apply IH. intros Hin. apply Hplus. right. exact Hin.
Qed.

(** X19. The timestamps end in [Z]: an ISO string that ends in [+00:00] and
    has no other plus sign becomes the same string with [Z] in place of the
    offset. *)
Theorem timestamp_z_suffix (t : Q) (p : pystr) :
  isoformat t = p ++ py "+00:00" ->
  ~ In 43%N p ->
  timestamp_z isoformat t = p ++ py "Z".
Proof.
  intros Hiso Hplus. unfold timestamp_z. rewrite Hiso.
  apply replace_offset_no_plus. exact Hplus.
Qed.

End Storage.

(** ** Instances of the further properties *)

Ltac not_in := intros H; repeat (destruct H as [H|H]; [discriminate|]); exact H.


Lemma json_body_not_an_object_witness :
  process_document Demo.dump Demo.size Demo.iso Demo.parser Demo.cfg0 Demo.env0
    (JsonRequest (Some (JList [JInt 1]))) Demo.empty_dir
  = (Unhandled AttributeError, Demo.empty_dir).
Proof.
  apply json_body_not_an_object_raises; [reflexivity|]. intros d. discriminate.
Defined.

Lemma json_content_not_a_string_witness :
  process_document Demo.dump Demo.size Demo.iso Demo.parser Demo.cfg0 Demo.env0
    (JsonRequest (Some (JDict [(py "content", JInt 5)]))) Demo.empty_dir
  = (Unhandled AttributeError, Demo.empty_dir).
Proof.
  apply (json_content_not_a_string_raises Demo.dump Demo.size Demo.iso Demo.parser Demo.cfg0
           Demo.env0 Demo.empty_dir [(py "content", JInt 5)] (JInt 5));
    [reflexivity|]. intros s. discriminate.
Defined.

Lemma json_content_surrogate_witness :
  process_document Demo.dump Demo.size Demo.iso Demo.parser Demo.cfg0 Demo.env0
    (JsonRequest (Some (JDict [(py "content", JStr [55296%N])]))) Demo.empty_dir
  = (Unhandled UnicodeEncodeError, Demo.empty_dir).
Proof.
  apply (json_content_surrogate_raises Demo.dump Demo.size Demo.iso Demo.parser Demo.cfg0
           Demo.env0 Demo.empty_dir [(py "content", JStr [55296%N])] [55296%N]);
    reflexivity.
Defined.

Lemma upload_with_empty_filename_witness :
  process_document Demo.dump Demo.size Demo.iso Demo.parser Demo.cfg0 Demo.env0
    Demo.upload_unnamed Demo.empty_dir
  = (Response 400 (JDict [(py "error", jstr "No file provided")]), Demo.empty_dir).
Proof.
  apply (upload_with_empty_filename_rejected Demo.dump Demo.size Demo.iso Demo.parser
           Demo.cfg0 Demo.env0 Demo.upload_unnamed Demo.empty_dir
           [(py "file", {| filename := []; stream := [x68] |})]
           {| filename := []; stream := [x68] |}); reflexivity.
Defined.

Lemma non_json_request_witness :
  (status_of (fst (process_document Demo.dump Demo.size Demo.iso Demo.parser
                     Demo.cfg0 Demo.env0 Demo.many_parts Demo.empty_dir)) = 200
   \/ status_of (fst (process_document Demo.dump Demo.size Demo.iso Demo.parser
                        Demo.cfg0 Demo.env0 Demo.many_parts Demo.empty_dir)) = 400
   \/ status_of (fst (process_document Demo.dump Demo.size Demo.iso Demo.parser
                        Demo.cfg0 Demo.env0 Demo.many_parts Demo.empty_dir)) = 413)
  /\ (forall x,
        fst (process_document Demo.dump Demo.size Demo.iso Demo.parser
               Demo.cfg0 Demo.env0 Demo.many_parts Demo.empty_dir) = Unhandled x <->
        x = RequestEntityTooLarge
        /\ request_files Demo.parser Demo.many_parts = None).
Proof. apply non_json_request_never_500. reflexivity. Defined.

Lemma upload_within_limit_witness :
  exists body st' size,
    process_document Demo.dump Demo.size Demo.iso Demo.parser Demo.cfg0 Demo.env0
      Demo.upload_bytes Demo.empty_dir = (Response 200 body, st')
    /\ json_path body ["filename"]%string = Some (jstr "blob.bin")
    /\ json_path body ["statistics"; "size_bytes"]%string = Some (JInt (Z.of_nat size))
    /\ (size <= 4)%nat.
Proof.
  apply (upload_within_limit_accepted Demo.dump Demo.size Demo.iso Demo.parser
           Demo.cfg0 Demo.env0 Demo.upload_bytes Demo.empty_dir
           [(py "file", {| filename := py "blob.bin"; stream := [x68; xff; xfe; x69] |})]
           {| filename := py "blob.bin"; stream := [x68; xff; xfe; x69] |});
    [reflexivity | reflexivity | reflexivity | discriminate | simpl; lia].
Defined.

Lemma raw_utf8_body_witness :
  exists body st',
    process_document Demo.dump Demo.size Demo.iso Demo.parser Demo.cfg0 Demo.env0
      (DataRequest [x68; xc3; xa9]) Demo.empty_dir = (Response 200 body, st')
    /\ json_path body ["statistics"; "character_count"]%string = Some (JInt 2)
    /\ json_path body ["statistics"; "size_bytes"]%string = Some (JInt 3).
Proof.
  apply (raw_utf8_body_statistics Demo.dump Demo.size Demo.iso Demo.parser Demo.cfg0
           Demo.env0 Demo.empty_dir [x68; xc3; xa9] [104; 233]%N);
    [reflexivity | discriminate | unfold Spec.over_limit; simpl; lia].
Defined.

Lemma statistics_consistent_witness :
  exists chars words bytes : nat,
    json_path Demo.hello_body ["statistics"; "character_count"]%string
    = Some (JInt (Z.of_nat chars))
    /\ json_path Demo.hello_body ["statistics"; "word_count"]%string
       = Some (JInt (Z.of_nat words))
    /\ json_path Demo.hello_body ["statistics"; "size_bytes"]%string
       = Some (JInt (Z.of_nat bytes))
    /\ (words <= chars <= bytes)%nat /\ (bytes <= 4 * chars)%nat
    /\ Z.of_nat bytes <= 10 * (1024 * 1024).
Proof.
  apply (statistics_consistent Demo.dump Demo.size Demo.iso Demo.parser Demo.cfg0 Demo.env0
           Demo.hello Demo.empty_dir Demo.hello_body Demo.hello_storage).
  vm_compute. reflexivity.
Defined.

Lemma analysis_is_constant_witness :
  json_path Demo.hello_body ["analysis"]%string
  = Some (JDict [(py "entities", mock_entities);
                 (py "key_phrases", mock_key_phrases);
                 (py "sentiment", mock_sentiment)]).
Proof.
  apply (analysis_is_constant Demo.dump Demo.size Demo.iso Demo.parser Demo.cfg0 Demo.env0
           Demo.hello Demo.empty_dir Demo.hello_body Demo.hello_storage).
  vm_compute. reflexivity.
Defined.

Lemma split_at_whitespace_witness :
  split (py "hello" ++ 32%N :: py "big world")
  = split (py "hello") ++ split (py "big world").
Proof. apply split_at_whitespace. reflexivity. Defined.

Lemma process_preserves_other_documents_witness :
  get_document Demo.load
    (snd (process_document Demo.dump Demo.size Demo.iso Demo.parser Demo.cfg0 Demo.env0
            Demo.hello Demo.dir_double_suffix)) (py "a.json")
  = get_document Demo.load Demo.dir_double_suffix (py "a.json").
Proof. apply process_preserves_other_documents. discriminate. Defined.

Lemma saved_iff_written_witness :
  (json_path Demo.hello_body ["storage"; "saved"]%string = Some (JBool true)
   <-> fst (_ensure_storage_directory Demo.empty_dir) = true
       /\ write_fault Demo.env0 = None)
  /\ (json_path Demo.hello_body ["storage"; "saved"]%string = Some (JBool true) ->
      json_path Demo.hello_body ["storage"; "path"]%string
      = Some (JStr (os_path_join (STORAGE_PATH Demo.cfg0)
                      (uuid4 Demo.env0 ++ py ".json")))
      /\ os_path_exists Demo.hello_storage (uuid4 Demo.env0 ++ py ".json") = true).
Proof.
  apply (saved_iff_written Demo.dump Demo.size Demo.iso Demo.parser Demo.cfg0 Demo.env0
           Demo.hello Demo.empty_dir Demo.hello_body Demo.hello_storage).
  vm_compute. reflexivity.
Defined.

Lemma list_documents_lists_json_entries_witness :
  exists files,
    json_path Demo.mixed_listing ["documents"]%string = Some (JList files)
    /\ json_path Demo.mixed_listing ["count"]%string
       = Some (JInt (Z.of_nat (length files)))
    /\ map (fun f => json_path f ["document_id"]%string) files
       = map (fun n => Some (JStr (replace n (py ".json") [])))
           (List.filter (fun n => endswith n (py ".json"))
              (map fst (map_to_list (entries Demo.dir_mixed)))).
Proof.
  apply (list_documents_lists_json_entries Demo.iso Demo.dir_mixed Demo.mixed_listing);
    vm_compute; reflexivity.
Defined.

Lemma processed_document_is_listed_witness :
  exists files f,
    json_path Demo.hello_listing ["documents"]%string = Some (JList files)
    /\ In f files
    /\ json_path f ["document_id"]%string = Some (JStr (uuid4 Demo.env0)).
Proof.
  apply (processed_document_is_listed Demo.dump Demo.size Demo.iso Demo.parser Demo.cfg0
           Demo.env0 Demo.hello Demo.empty_dir Demo.hello_body Demo.hello_storage
           Demo.hello_listing).
  - vm_compute. reflexivity.
  - vm_compute. reflexivity.
  - vm_compute. not_in.
  - vm_compute. reflexivity.
  - vm_compute. reflexivity.
Defined.

Lemma listed_id_is_retrievable_witness :
  endswith (py "0a1b" ++ py ".json") (py ".json") = true
  /\ replace (py "0a1b" ++ py ".json") (py ".json") [] = py "0a1b"
  /\ status_of (get_document Demo.load (Directory Demo.dir_mixed) (py "0a1b")) <> 404.
Proof.
  apply (listed_id_is_retrievable Demo.load Demo.dir_mixed (py "0a1b")
           (Demo.regular (JDict [(py "document_id", jstr "0a1b")]))
           {| st_size := 2; st_ctime := 0 |}).
  - vm_compute. reflexivity.
  - reflexivity.
  - vm_compute. not_in.
Defined.

Lemma timestamp_z_suffix_witness :
  timestamp_z Demo.iso 0 = py "2024-01-01T00:00:00" ++ py "Z".
Proof.
  apply timestamp_z_suffix; [reflexivity|]. vm_compute. not_in.
Defined.

Lemma ensure_storage_directory_witness :
  _ensure_storage_directory
    (snd (_ensure_storage_directory (NoDirectory (filedata := Demo.stored) None)))
  = _ensure_storage_directory (NoDirectory (filedata := Demo.stored) None)
  /\ _ensure_storage_directory Demo.empty_dir = (true, Demo.empty_dir).
Proof.
  split.
  - destruct (ensure_storage_directory_idempotent
                (NoDirectory (filedata := Demo.stored) None)) as (H & _).
    exact H.
  - destruct (ensure_storage_directory_idempotent Demo.empty_dir) as (_ & _ & H).
    apply (H {| entries := ∅; listdir_error := None |}). reflexivity.
Defined.

Lemma list_documents_effect_witness :
  snd (list_documents Demo.iso Demo.dir_double_suffix) = Demo.dir_double_suffix
  /\ fst (list_documents Demo.iso (NoDirectory (filedata := Demo.stored) None))
     = Response 200 (JDict [(py "documents", JList []); (py "count", JInt 0)]).
Proof.
  split.
  - destruct (list_documents_effect Demo.iso Demo.dir_double_suffix) as (_ & H & _).
    eapply H. reflexivity.
  - destruct (list_documents_effect Demo.iso
                (NoDirectory (filedata := Demo.stored) None)) as (_ & _ & H).
    apply H. reflexivity.
Defined.

(** A part named [file] that has no filename is a form field, not an
    upload: the request has no files and is processed as an empty raw body. *)
Example field_named_file_is_no_upload :
  request_files Demo.parser Demo.field_named_file = Some []
  /\ resolve_input Demo.parser Demo.field_named_file
     = inr (jstr "Sample document", jstr "document.txt").
Proof. split; reflexivity. Qed.

(** A form field above the parser's limit makes [request.files] raise. *)
Example large_field_rejected :
  request_files Demo.parser
    (FormRequest (Multipart [ {| part_name := py "file";
                                 part_filename := Some (py "f.txt");
                                 part_data := [x68; x69] |};
                              {| part_name := py "note";
                                 part_filename := None;
                                 part_data := repeat x61 600000 |} ]))
  = None.
Proof. vm_compute. reflexivity. Qed.
